(** * cmd/server/handler.go: serve orchestration of the admin and public interfaces

    A shallow embedding of [EnhanceMiddleware], [isDSNAllowed], [RunServeAdmin],
    [RunServePublic], [RunServeAll], [setup] and [serve].

    - A [negroni.Negroni] is the ordered slice of its handlers; [Use], [UseFunc]
      and [UseHandler] append to it, and [ServeHTTP] calls them in that order.
    - Logging, environment reads, listener creation and the blocking
      [srv.Serve] calls are events of a trace; a Fatal log ends the process.
    - What the outside world answers (environment, bind errors, ...) is read
      from a record, so every function below can be evaluated. *)

From Stdlib Require Import List String Ascii Bool ZArith Lia.
Import ListNotations.
Local Open Scope string_scope.

(** ** Go's [strings] helpers used by the file and by [networkx] *)

Module Strings.

(** [strings.HasPrefix(s, prefix)]. *)
Definition HasPrefix (s prefix : string) : bool := String.prefix prefix s.

(** [strings.TrimPrefix(s, prefix)]. *)
Definition TrimPrefix (s prefix : string) : string :=
  if HasPrefix s prefix
  then String.substring (String.length prefix) (String.length s - String.length prefix) s
  else s.

(** [strings.Contains(s, substr)]. *)
Fixpoint Contains (s substr : string) : bool :=
  HasPrefix s substr ||
  match s with
  | EmptyString => false
  | String _ rest => Contains rest substr
  end.

End Strings.

(** ** driver/config: the two serve interfaces *)

Module Config.

Inductive ServeInterface : Type :=
| PublicInterface
| AdminInterface.

Definition iface_eqb (a b : ServeInterface) : bool :=
  match a, b with
  | PublicInterface, PublicInterface => true
  | AdminInterface, AdminInterface => true
  | _, _ => false
  end.

(** The [String] method of the interface. *)
Definition ServeInterface_String (iface : ServeInterface) : string :=
  match iface with
  | PublicInterface => "public"
  | AdminInterface => "admin"
  end.

(** Modelled from the spec: [config.ServeInterface] and its [Key] method are
    declared in driver/config, which is not part of the sources at hand.  The
    spec's Interface Identity is the enumeration {Admin, Public}; the key of
    an interface is its configuration name space [serve.<name>.<suffix>], and
    the comment at the tunnel test of [serve] reads the key
    [serve.admin.prefix] as "interface is serve.admin". *)
Definition Key (iface : ServeInterface) (suffix : string) : string :=
  "serve." ++ ServeInterface_String iface ++ "." ++ suffix.

End Config.
Export Config.

(** ** ory/x/networkx and the listeners *)

Module Networkx.

Record UnixPermission : Type := mkUnixPermission {
  Owner : string;
  Group : string;
  Mode : Z
}.

(** [ziti.ListenOptions], durations in nanoseconds as [time.Duration] has them. *)
Record ListenOptions : Type := mkListenOptions {
  ConnectTimeout : Z;
  MaxConnections : Z
}.

Inductive Listener : Type :=
| UnixListener (path : string) (permission : UnixPermission)
| TCPListener (address : string)
| ZitiListener (service : string) (options : ListenOptions).

Definition AddressIsUnixSocket (address : string) : bool :=
  Strings.HasPrefix address "unix:".

(** [networkx.MakeListener]: a unix listener on the path behind the [unix:]
    prefix, a TCP listener on anything else.  [bind_error] is the answer of
    the operating system for that address. *)
Definition MakeListener (bind_error : string -> option string)
           (address : string) (socketPermission : UnixPermission)
  : Listener + string :=
  match bind_error address with
  | Some err => inr err
  | None =>
      if AddressIsUnixSocket address
      then inl (UnixListener (Strings.TrimPrefix address "unix:") socketPermission)
      else inl (TCPListener address)
  end.

End Networkx.
Export Networkx.

(** ** urfave/negroni: a stack of middleware *)

Module Negroni.

Inductive Router : Type :=
| RouterAdmin
| RouterPublic.

(** The handlers this file puts on a stack. *)
Inductive Handler : Type :=
| RejectInsecureRequests (iface : ServeInterface)
| ServiceLocatorMiddleware (id : nat)
| ReqlogMiddleware (name : string) (silencePaths : list string)
| PrometheusManager
| MetricsService
| RouterHandler (router : Router)
| ContextualizedCORS (iface : ServeInterface).

Definition Negroni : Type := list Handler.

Definition New : Negroni := [].

(** [Use] adds a handler onto the stack; handlers are invoked in the order
    they were added. *)
Definition Use (n : Negroni) (h : Handler) : Negroni := (n ++ [h])%list.
Definition UseFunc (n : Negroni) (f : Handler) : Negroni := Use n f.
Definition UseHandler (n : Negroni) (router : Router) : Negroni :=
  Use n (RouterHandler router).

(** [ServeHTTP]: the first handler added is called first and is handed the
    rest of the stack as [next]; the handlers a request reaches are the
    prefix of the stack up to the first one that does not call [next]. *)
Fixpoint ServeHTTP (calls_next : Handler -> bool) (n : Negroni) : list Handler :=
  match n with
  | [] => []
  | h :: rest => h :: (if calls_next h then ServeHTTP calls_next rest else [])
  end.

Definition is_gate (h : Handler) : bool :=
  match h with RejectInsecureRequests _ => true | _ => false end.

Definition is_cors (h : Handler) : bool :=
  match h with ContextualizedCORS _ => true | _ => false end.

End Negroni.
Export Negroni.

(** ** The registry, the command line and the outside world *)

Record Registry : Type := mkRegistry {
  DSN : string;
  ListenOn : ServeInterface -> string;
  SocketPermission : ServeInterface -> UnixPermission;
  TLSEnabled : ServeInterface -> bool;
  DisableHealthAccessLog : ServeInterface -> bool;
  CGroupsV1AutoMaxProcsEnabled : bool;
  IssuerURL : string;
  TracerIsLoaded : bool
}.

(** [sl.HTTPMiddlewares()], in registration order. *)
Record ServiceLocator : Type := mkServiceLocator {
  HTTPMiddlewares : list nat
}.

(** The flags of the cobra command: [cmd.Flags().GetBool("zitified")]. *)
Record Command : Type := mkCommand {
  flag_zitified : bool
}.

(** The answers of everything outside the process: the environment, whether
    [driver.New] and [maxprocs.Set] succeed, and the errors of certificate
    acquisition, of the tunnel backend, of binding an address and of a
    running server ([None] is a graceful shutdown). *)
Record World : Type := mkWorld {
  environ : list (string * string);
  driver_New : Registry + string;
  maxprocs_Set : option string;
  certificate_error : ServeInterface -> option string;
  ziti_error : string -> option string;
  bind_error : string -> option string;
  serve_error : Listener -> option string
}.

(** [os.Getenv]: the value of the variable, empty when it is not set. *)
Fixpoint lookup_env (env : list (string * string)) (key : string) : string :=
  match env with
  | [] => ""
  | (k, v) :: rest => if String.eqb k key then v else lookup_env rest key
  end.

Definition Getenv (w : World) (key : string) : string := lookup_env (environ w) key.

(** ** Effects: a trace of events, ended by [os.Exit] on a Fatal log *)

Inductive HttpHandler : Type :=
| NegroniHandler (n : Negroni)
| TraceHandler (h : HttpHandler).

(** [tls.Config{Certificates: ...}]: the certificates of one interface. *)
Record TLSConfig : Type := mkTLSConfig {
  Certificates : ServeInterface
}.

Record Server : Type := mkServer {
  srv_Handler : HttpHandler;
  srv_TLSConfig : option TLSConfig
}.

Inductive Event : Type :=
| PrintBanner
| Infof (msg : string)
| Warnln (msg : string)
| Fatal (msg : string)
| RegisterRouter (router : Router)
| RegisterRoutes
| AcquireCertificates (iface : ServeInterface)
| ListenWithOptions (service : string) (options : ListenOptions)
| MakeListenerCall (address : string) (permission : UnixPermission)
| SrvServe (srv : Server) (listener : Listener)
| SrvServeTLS (srv : Server) (listener : Listener)
| WgDone.

Inductive Outcome (A : Type) : Type :=
| Ret (a : A)
| Exit.
Arguments Ret {A} a.
Arguments Exit {A}.

Definition M (A : Type) : Type := (list Event * Outcome A)%type.

Definition ret {A} (a : A) : M A := ([], Ret a).

Definition bind {A B} (m : M A) (k : A -> M B) : M B :=
  match m with
  | (t, Ret a) => let (t', o) := k a in ((t ++ t')%list, o)
  | (t, Exit) => (t, Exit)
  end.

Definition emit (e : Event) : M unit := ([e], Ret tt).

(** [Logger().Fatal], [Fatalf]: the entry is logged and the process exits. *)
Definition fatal {A} (msg : string) : M A := ([Fatal msg], Exit).

Definition trace {A} (m : M A) : list Event := fst m.
Definition outcome {A} (m : M A) : Outcome A := snd m.

Declare Scope go_scope.
Delimit Scope go_scope with go.
Notation "x <- m ;; k" := (bind m (fun x => k))
  (at level 61, m at next level, right associativity) : go_scope.
Notation "m ;;; k" := (bind m (fun _ => k))
  (at level 61, right associativity) : go_scope.
Local Open Scope go_scope.

(** ** handler.go *)

Definition EnhanceMiddleware (sl : ServiceLocator) (d : Registry) (n : Negroni)
           (address : string) (router : Router) (enableCORS : bool)
           (iface : ServeInterface) : Negroni :=
  let n :=
    if negb (AddressIsUnixSocket address)
    then UseFunc n (RejectInsecureRequests iface)
    else n in
  let n :=
    fold_left (fun n mw => UseFunc n (ServiceLocatorMiddleware mw))
              (HTTPMiddlewares sl) n in
  let n := UseHandler n router in
  (* the value of corsx.ContextualizedMiddleware(...) is dropped *)
  let _ := ContextualizedCORS iface in
  n.

(** The double quote of the messages. *)
Definition dq : string := String (Ascii.ascii_of_nat 34) EmptyString.

Definition dsn_message : string :=
  "When using " ++ dq ++ "hydra serve admin" ++ dq ++ " or " ++ dq
    ++ "hydra serve public" ++ dq ++ " the DSN can not be set to " ++ dq
    ++ "memory" ++ dq ++ ".".

Definition isDSNAllowed (r : Registry) : M unit :=
  if String.eqb (DSN r) "memory"
  then fatal dsn_message
  else ret tt.

Definition AliveCheckPath : string := "/health/alive".
Definition ReadyCheckPath : string := "/health/ready".

Definition adminLogger (d : Registry) : Handler :=
  ReqlogMiddleware ("hydra/admin: " ++ IssuerURL d)
    (if DisableHealthAccessLog d AdminInterface
     then ["/admin" ++ AliveCheckPath; "/admin" ++ ReadyCheckPath]
     else []).

Definition publicLogger (d : Registry) : Handler :=
  ReqlogMiddleware ("hydra/public: " ++ IssuerURL d)
    (if DisableHealthAccessLog d PublicInterface
     then [AliveCheckPath; ReadyCheckPath]
     else []).

Definition setup (w : World) (d : Registry) : M (Router * Router * Negroni * Negroni) :=
  emit PrintBanner ;;;
  (if CGroupsV1AutoMaxProcsEnabled d
   then match maxprocs_Set w with
        | Some _ => fatal "Couldn't set GOMAXPROCS"
        | None => ret tt
        end
   else ret tt) ;;;
  let adminmw := New in
  let publicmw := New in
  let admin := RouterAdmin in
  let public := RouterPublic in
  let adminmw := Use adminmw (adminLogger d) in
  let adminmw := Use adminmw PrometheusManager in
  let publicmw := Use publicmw (publicLogger d) in
  let publicmw := Use publicmw PrometheusManager in
  let metrics := MetricsService in
  let adminmw := Use adminmw metrics in
  let publicmw := Use publicmw metrics in
  emit RegisterRoutes ;;;
  ret (admin, public, adminmw, publicmw).

(** Modelled from the spec: [GetOrCreateTLSCertificate] lives in another file
    of the package.  The spec's CertificateProvider returns the certificates of
    the interface, and a failure of certificate acquisition is fatal. *)
Definition GetOrCreateTLSCertificate (w : World) (iface : ServeInterface)
  : M ServeInterface :=
  emit (AcquireCertificates iface) ;;;
  match certificate_error w iface with
  | Some _ => fatal "Could not get or create TLS certificate"
  | None => ret iface
  end.

Definition Minute : Z := 60 * 1000000000.

Definition https_warning : string :=
  "HTTPS is disabled. Please ensure that your proxy is configured to provide HTTPS, and that it redirects HTTP to HTTPS.".

Definition ziti_service_message : string :=
  "Zitified flag set, but ZITI_SERVICE environment variable not found".

(** The block of [serve] between BEGIN_ZITIFICATION and END_ZITIFICATION: the
    listener of the interface, or the error the closure returns. *)
Definition zitification (w : World) (cmd : Command) (iface : ServeInterface)
           (address : string) (permission : UnixPermission)
  : M (Listener + string) :=
  let zitified := flag_zitified cmd in
  emit (Infof ("CW: Incoming config interface: " ++ Key iface "prefix")) ;;;
  if zitified && String.eqb (Key iface "prefix") "serve.admin.prefix" then
    let zitiService := Getenv w "ZITI_SERVICE" in
    if String.eqb zitiService "" then
      ret (inr ziti_service_message)
    else
      emit (Infof ("Setting up Zitified listener on " ++ zitiService)) ;;;
      let options := mkListenOptions (5 * Minute) 3 in
      emit (ListenWithOptions zitiService options) ;;;
      match ziti_error w zitiService with
      | Some err => ret (inr err)
      | None => ret (inl (ZitiListener zitiService options))
      end
  else
    emit (Infof "Setting non Zitified listener") ;;;
    emit (MakeListenerCall address permission) ;;;
    ret (MakeListener (bind_error w) address permission).

(** The closure [serve] hands to [graceful.Graceful]; its value is the error
    it returns, [None] for nil. *)
Definition serve_start (w : World) (cmd : Command) (iface : ServeInterface)
           (srv : Server) (tlsConfig : option TLSConfig)
           (address : string) (permission : UnixPermission)
  : M (option string) :=
  emit (Infof ("Setting up http server on " ++ address)) ;;;
  r <- zitification w cmd iface address permission ;;
  match r with
  | inr err => ret (Some err)
  | inl listener =>
      if AddressIsUnixSocket address then
        emit (SrvServe srv listener) ;;;
        ret (serve_error w listener)
      else
        match tlsConfig with
        | Some _ =>
            emit (SrvServeTLS srv listener) ;;;
            ret (serve_error w listener)
        | None =>
            (if iface_eqb iface PublicInterface
             then emit (Warnln https_warning)
             else ret tt) ;;;
            emit (SrvServe srv listener) ;;;
            ret (serve_error w listener)
        end
  end.

(** [graceful.Graceful(start, shutdown)] runs [start] and hands back its
    error; a server closed by the shutdown signal counts as no error. *)
Definition Graceful (start : M (option string)) : M (option string) := start.

(** [serve].  The deferred [wg.Done()] is the last event of a call that
    returns; it does not run when the process exits on a Fatal log. *)
Definition serve (w : World) (d : Registry) (cmd : Command)
           (iface : ServeInterface) (handler : HttpHandler)
           (address : string) (permission : UnixPermission) : M unit :=
  let handler := if TracerIsLoaded d then TraceHandler handler else handler in
  tlsConfig <-
    (if TLSEnabled d iface
     then certs <- GetOrCreateTLSCertificate w iface ;;
          ret (Some (mkTLSConfig certs))
     else ret None) ;;
  let srv := mkServer handler tlsConfig in
  err <- Graceful (serve_start w cmd iface srv tlsConfig address permission) ;;
  match err with
  | Some _ => fatal "Could not gracefully run server"
  | None => ret tt
  end ;;;
  emit WgDone.

(** The arguments of one [go serve(...)] statement, evaluated by the caller. *)
Record ServeTask : Type := mkServeTask {
  task_iface : ServeInterface;
  task_handler : Negroni;
  task_address : string;
  task_permission : UnixPermission
}.

(** What a [RunServe...] function has done when it reaches [wg.Wait()]: the
    argument of [wg.Add] and the goroutines started, in program order. *)
Record Coordinator : Type := mkCoordinator {
  wg_Add : Z;
  goroutines : list ServeTask
}.

Definition go_serve (sl : ServiceLocator) (d : Registry) (iface : ServeInterface)
           (mw : Negroni) (router : Router) (enableCORS : bool) : ServeTask :=
  mkServeTask iface
    (EnhanceMiddleware sl d mw (ListenOn d iface) router enableCORS iface)
    (ListenOn d iface)
    (SocketPermission d iface).

(** The three entry points, up to [wg.Wait()]: [inr err] is the early
    [return err] after [driver.New]. *)
Definition RunServeAdmin (w : World) (sl : ServiceLocator) : M (Coordinator + string) :=
  match driver_New w with
  | inr err => ret (inr err)
  | inl d =>
      isDSNAllowed d ;;;
      s <- setup w d ;;
      let '(admin, _, adminmw, _) := s in
      emit (RegisterRouter admin) ;;;
      ret (inl (mkCoordinator 1
                  [go_serve sl d AdminInterface adminmw admin true]))
  end.

Definition RunServePublic (w : World) (sl : ServiceLocator) : M (Coordinator + string) :=
  match driver_New w with
  | inr err => ret (inr err)
  | inl d =>
      isDSNAllowed d ;;;
      s <- setup w d ;;
      let '(_, public, _, publicmw) := s in
      emit (RegisterRouter public) ;;;
      ret (inl (mkCoordinator 1
                  [go_serve sl d PublicInterface publicmw public false]))
  end.

Definition RunServeAll (w : World) (sl : ServiceLocator) : M (Coordinator + string) :=
  match driver_New w with
  | inr err => ret (inr err)
  | inl d =>
      s <- setup w d ;;
      let '(admin, public, adminmw, publicmw) := s in
      emit (RegisterRouter admin) ;;;
      emit (RegisterRouter public) ;;;
      ret (inl (mkCoordinator 2
                  [go_serve sl d PublicInterface publicmw public false;
                   go_serve sl d AdminInterface adminmw admin true]))
  end.

(** The serve sub-commands and the function each one runs. *)
Inductive ServeCommand : Type :=
| ServeAdmin
| ServePublic
| ServeAll.

Definition Run (c : ServeCommand) : World -> ServiceLocator -> M (Coordinator + string) :=
  match c with
  | ServeAdmin => RunServeAdmin
  | ServePublic => RunServePublic
  | ServeAll => RunServeAll
  end.

(** ** The goroutines of a [RunServe...] function

    [var wg sync.WaitGroup; wg.Add(k); go serve(...); ...; wg.Wait(); return nil]
    as an interleaving of the main goroutine with the serving tasks.  A task
    that is still running may be blocked in its server for ever; when it
    ends, it ends as [serve] does in this world: by returning, which runs the
    deferred [wg.Done()], or by a Fatal log, which ends the process. *)

Inductive TaskState : Type :=
| Running
| Terminated
| TerminatedFatal.

Inductive MainState : Type :=
| MainAdd
| MainGo (rest : list ServeTask)
| MainWait
| MainReturned.

Record Process : Type := mkProcess {
  main : MainState;
  wg : Z;
  tasks : list (ServeTask * TaskState);
  exited : bool
}.

Definition start_process : Process := mkProcess MainAdd 0 [] false.

Definition run_task (w : World) (d : Registry) (cmd : Command) (t : ServeTask) : M unit :=
  serve w d cmd (task_iface t) (NegroniHandler (task_handler t))
        (task_address t) (task_permission t).

Section Goroutines.

Variable w : World.
Variable d : Registry.
Variable cmd : Command.
Variable c : Coordinator.

Inductive step : Process -> Process -> Prop :=
| step_Add : forall n ts,
    step (mkProcess MainAdd n ts false)
         (mkProcess (MainGo (goroutines c)) (n + wg_Add c) ts false)
| step_go : forall t rest n ts,
    step (mkProcess (MainGo (t :: rest)) n ts false)
         (mkProcess (MainGo rest) n (ts ++ [(t, Running)]) false)
| step_Wait : forall n ts,
    step (mkProcess (MainGo []) n ts false)
         (mkProcess MainWait n ts false)
| step_return : forall ts,
    step (mkProcess MainWait 0 ts false)
         (mkProcess MainReturned 0 ts false)
| step_Done : forall m n before t after,
    outcome (run_task w d cmd t) = Ret tt ->
    step (mkProcess m n (before ++ (t, Running) :: after) false)
         (mkProcess m (n - 1) (before ++ (t, Terminated) :: after) (n - 1 <? 0)%Z)
| step_Fatal : forall m n before t after,
    outcome (run_task w d cmd t) = Exit ->
    step (mkProcess m n (before ++ (t, Running) :: after) false)
         (mkProcess m n (before ++ (t, TerminatedFatal) :: after) true).

Inductive reachable : Process -> Prop :=
| reach_start : reachable start_process
| reach_step : forall p q, reachable p -> step p q -> reachable q.

End Goroutines.

Definition is_pending (s : TaskState) : bool :=
  match s with Terminated => false | _ => true end.

Definition pending (ts : list (ServeTask * TaskState)) : Z :=
  Z.of_nat (List.length (filter (fun x => is_pending (snd x)) ts)).

(** ** Worked examples *)

Definition perm0 : UnixPermission := mkUnixPermission "" "" 493.

Definition registry0 : Registry :=
  mkRegistry "postgres://hydra"
             (fun iface => match iface with
                           | PublicInterface => ":4444"
                           | AdminInterface => ":4445"
                           end)
             (fun _ => perm0) (fun _ => false) (fun _ => false) false
             "https://issuer.example" false.

Definition registry_sock : Registry :=
  mkRegistry "postgres://hydra"
             (fun iface => match iface with
                           | PublicInterface => ":4444"
                           | AdminInterface => "unix:/tmp/admin.sock"
                           end)
             (fun _ => perm0) (fun _ => true) (fun _ => false) false
             "https://issuer.example" false.

Definition registry_memory : Registry :=
  mkRegistry "memory" (ListenOn registry0) (fun _ => perm0) (fun _ => false)
             (fun _ => false) false "https://issuer.example" false.

Definition world_of (env : list (string * string)) (d : Registry) : World :=
  mkWorld env (inl d) None (fun _ => None) (fun _ => None) (fun _ => None)
          (fun _ => None).

Definition world0 : World := world_of [] registry0.
Definition world_sock : World := world_of [("ZITI_SERVICE", "svc-x")] registry_sock.
Definition world_memory : World := world_of [] registry_memory.

Definition sl0 : ServiceLocator := mkServiceLocator [1%nat; 2%nat].

(** ** The composed pipeline *)

Definition logger_of (d : Registry) (iface : ServeInterface) : Handler :=
  match iface with
  | PublicInterface => publicLogger d
  | AdminInterface => adminLogger d
  end.

Definition router_of (iface : ServeInterface) : Router :=
  match iface with
  | PublicInterface => RouterPublic
  | AdminInterface => RouterAdmin
  end.

(** The stack [setup] hands over for an interface. *)
Definition setup_stack (d : Registry) (iface : ServeInterface) : Negroni :=
  [logger_of d iface; PrometheusManager; MetricsService].

(** The order the specification gives for an address that is not a unix
    socket: gate, service-locator middlewares, access log, collector, router. *)
Definition claimed_pipeline (sl : ServiceLocator) (d : Registry)
           (iface : ServeInterface) : Negroni :=
  (RejectInsecureRequests iface
     :: map ServiceLocatorMiddleware (HTTPMiddlewares sl)
     ++ [logger_of d iface; MetricsService; RouterHandler (router_of iface)])%list.

Definition public_task0 : ServeTask :=
  go_serve sl0 registry0 PublicInterface
           (setup_stack registry0 PublicInterface) RouterPublic false.

Definition admin_task0 : ServeTask :=
  go_serve sl0 registry0 AdminInterface
           (setup_stack registry0 AdminInterface) RouterAdmin true.

Definition admin_task_sock : ServeTask :=
  go_serve sl0 registry_sock AdminInterface
           (setup_stack registry_sock AdminInterface) RouterAdmin true.

(** ** Transport modes and kinds of events *)

Inductive TransportMode : Type :=
| UnixSocket
| TCP
| OverlayTunnel.

Definition listener_mode (l : Listener) : TransportMode :=
  match l with
  | UnixListener _ _ => UnixSocket
  | TCPListener _ => TCP
  | ZitiListener _ _ => OverlayTunnel
  end.

(** The rule of the specification: the shape of the address is looked at
    first, the tunnel flag second. *)
Definition claimed_mode (cmd : Command) (iface : ServeInterface)
           (address : string) : TransportMode :=
  if AddressIsUnixSocket address then UnixSocket
  else if flag_zitified cmd && iface_eqb iface AdminInterface then OverlayTunnel
  else TCP.

(** The rule of [serve]: the tunnel flag is looked at first. *)
Definition tunnel_selected (cmd : Command) (iface : ServeInterface) : bool :=
  flag_zitified cmd && iface_eqb iface AdminInterface.

Definition resolved_mode (cmd : Command) (iface : ServeInterface)
           (address : string) : TransportMode :=
  if tunnel_selected cmd iface then OverlayTunnel
  else if AddressIsUnixSocket address then UnixSocket
  else TCP.

(** Nothing outside the process stands in the way of the listener. *)
Definition backend_ready (w : World) (cmd : Command) (iface : ServeInterface)
           (address : string) : Prop :=
  if tunnel_selected cmd iface
  then Getenv w "ZITI_SERVICE" <> "" /\ ziti_error w (Getenv w "ZITI_SERVICE") = None
  else bind_error w address = None.

Definition is_serve_event (e : Event) : bool :=
  match e with
  | SrvServe _ _ | SrvServeTLS _ _ => true
  | _ => false
  end.

Definition is_tls_serve (e : Event) : bool :=
  match e with
  | SrvServeTLS _ _ => true
  | _ => false
  end.

Definition is_listen_event (e : Event) : bool :=
  match e with
  | ListenWithOptions _ _ | MakeListenerCall _ _ => true
  | _ => false
  end.

Definition is_resolution_event (e : Event) : bool :=
  match e with
  | Infof _ | ListenWithOptions _ _ | MakeListenerCall _ _ => true
  | _ => false
  end.

Definition cmd_zitified : Command := mkCommand true.
Definition cmd_plain : Command := mkCommand false.

(** What [wg] counts while a coordinator runs: after [wg.Add], the tasks
    that have not run their [wg.Done()] and the goroutines still to start. *)
Definition coordinator_inv (c : Coordinator) (p : Process) : Prop :=
  match main p with
  | MainAdd => tasks p = [] /\ wg p = 0%Z
  | MainGo rest =>
      (map fst (tasks p) ++ rest)%list = goroutines c
      /\ wg p = (pending (tasks p) + Z.of_nat (List.length rest))%Z
  | MainWait =>
      map fst (tasks p) = goroutines c /\ wg p = pending (tasks p)
  | MainReturned =>
      map fst (tasks p) = goroutines c /\ pending (tasks p) = 0%Z
  end.

Definition coordinator0 : Coordinator :=
  mkCoordinator 2 [public_task0; admin_task0].

(** ** The options of the metrics service built by [setup] *)

Definition VersionPath : string := "/version".
Definition MetricsPrometheusPath : string := "/metrics/prometheus".

(** The path constants of the packages jwk, client, oauth2 and consent that
    the whitelist of [setup] names; they are declared outside this file. *)
Record HandlerPaths : Type := mkHandlerPaths {
  jwk_KeyHandlerPath : string;
  jwk_WellKnownKeysPath : string;
  client_ClientsHandlerPath : string;
  client_DynClientsHandlerPath : string;
  oauth2_DefaultConsentPath : string;
  oauth2_DefaultLoginPath : string;
  oauth2_DefaultPostLogoutPath : string;
  oauth2_DefaultLogoutPath : string;
  oauth2_DefaultErrorPath : string;
  oauth2_TokenPath : string;
  oauth2_AuthPath : string;
  oauth2_LogoutPath : string;
  oauth2_UserinfoPath : string;
  oauth2_WellKnownPath : string;
  oauth2_JWKPath : string;
  oauth2_IntrospectPath : string;
  oauth2_DeleteTokensPath : string;
  oauth2_RevocationPath : string;
  consent_ConsentPath : string;
  consent_LoginPath : string;
  consent_LogoutPath : string;
  consent_SessionsPath : string
}.

(** [WhitelistedPaths] of the [metricsx.Options] literal, in source order. *)
Definition WhitelistedPaths (c : HandlerPaths) : list string :=
  [ "/admin" ++ jwk_KeyHandlerPath c;
    jwk_WellKnownKeysPath c;
    "/admin" ++ client_ClientsHandlerPath c;
    client_DynClientsHandlerPath c;
    oauth2_DefaultConsentPath c;
    oauth2_DefaultLoginPath c;
    oauth2_DefaultPostLogoutPath c;
    oauth2_DefaultLogoutPath c;
    oauth2_DefaultErrorPath c;
    oauth2_TokenPath c;
    oauth2_AuthPath c;
    oauth2_LogoutPath c;
    oauth2_UserinfoPath c;
    oauth2_WellKnownPath c;
    oauth2_JWKPath c;
    "/admin" ++ oauth2_IntrospectPath c;
    "/admin" ++ oauth2_DeleteTokensPath c;
    oauth2_RevocationPath c;
    "/admin" ++ consent_ConsentPath c;
    "/admin" ++ consent_ConsentPath c ++ "/accept";
    "/admin" ++ consent_ConsentPath c ++ "/reject";
    "/admin" ++ consent_LoginPath c;
    "/admin" ++ consent_LoginPath c ++ "/accept";
    "/admin" ++ consent_LoginPath c ++ "/reject";
    "/admin" ++ consent_LogoutPath c;
    "/admin" ++ consent_LogoutPath c ++ "/accept";
    "/admin" ++ consent_LogoutPath c ++ "/reject";
    "/admin" ++ consent_SessionsPath c ++ "/login";
    "/admin" ++ consent_SessionsPath c ++ "/consent";
    AliveCheckPath;
    ReadyCheckPath;
    "/admin" ++ AliveCheckPath;
    "/admin" ++ ReadyCheckPath;
    VersionPath;
    "/admin" ++ VersionPath;
    MetricsPrometheusPath;
    "/admin" ++ MetricsPrometheusPath;
    "/" ].

(** [IsDevelopment] of the same literal. *)
Definition IsDevelopment (d : Registry) : bool :=
  String.eqb (DSN d) "memory"
  || String.eqb (IssuerURL d) ""
  || Strings.Contains (IssuerURL d) "localhost".

(** The paths an access log leaves out ([ExcludePaths]). *)
Definition silencePaths_of (h : Handler) : list string :=
  match h with
  | ReqlogMiddleware _ paths => paths
  | _ => []
  end.

(** ** What each command serves and registers *)

Definition served_interfaces (c : ServeCommand) : list ServeInterface :=
  match c with
  | ServeAdmin => [AdminInterface]
  | ServePublic => [PublicInterface]
  | ServeAll => [PublicInterface; AdminInterface]
  end.

Definition registered_routers (c : ServeCommand) : list Router :=
  match c with
  | ServeAdmin => [RouterAdmin]
  | ServePublic => [RouterPublic]
  | ServeAll => [RouterAdmin; RouterPublic]
  end.

Definition is_fatal_event (e : Event) : bool :=
  match e with
  | Fatal _ => true
  | _ => false
  end.

Definition is_service_locator (h : Handler) : bool :=
  match h with
  | ServiceLocatorMiddleware _ => true
  | _ => false
  end.

(** The server [serve] builds for an interface. *)
Definition server_of (d : Registry) (iface : ServeInterface)
           (handler : HttpHandler) : Server :=
  mkServer (if TracerIsLoaded d then TraceHandler handler else handler)
           (if TLSEnabled d iface then Some (mkTLSConfig iface) else None).

(** [serve] gets as far as the closure: TLS is off or the certificates are there. *)
Definition certificates_ready (w : World) (d : Registry)
           (iface : ServeInterface) : bool :=
  negb (TLSEnabled d iface)
  || match certificate_error w iface with Some _ => false | None => true end.

Definition is_fatal_task (x : ServeTask * TaskState) : bool :=
  match snd x with
  | TerminatedFatal => true
  | _ => false
  end.

(** The wait-group invariant together with the counter after [wg.Wait()]
    and the reason of a process exit. *)
Definition counter_inv (c : Coordinator) (p : Process) : Prop :=
  coordinator_inv c p
  /\ (main p = MainReturned -> wg p = 0%Z)
  /\ exited p = existsb is_fatal_task (tasks p).

Definition registry_dev : Registry :=
  mkRegistry "postgres://hydra" (ListenOn registry0) (fun _ => perm0)
             (fun _ => false) (fun _ => true) true
             "http://localhost:4444/" true.

Definition world_dev : World := world_of [("ZITI_SERVICE", "")] registry_dev.

Definition world_bind_error : World :=
  mkWorld [] (inl registry0) None (fun _ => None) (fun _ => None)
          (fun _ => Some "address already in use") (fun _ => None).

Definition world_no_driver : World :=
  mkWorld [] (inr "driver: could not connect") None (fun _ => None)
          (fun _ => None) (fun _ => None) (fun _ => None).

Definition world_maxprocs : World :=
  mkWorld [] (inl registry_dev) (Some "cgroups") (fun _ => None)
          (fun _ => None) (fun _ => None) (fun _ => None).

Definition paths0 : HandlerPaths :=
  mkHandlerPaths "/keys" "/.well-known/jwks.json" "/clients"
                 "/oauth2/register" "/oauth2/fallbacks/consent"
                 "/oauth2/fallbacks/login" "/oauth2/fallbacks/logout/callback"
                 "/oauth2/fallbacks/logout" "/oauth2/fallbacks/error"
                 "/oauth2/token" "/oauth2/auth" "/oauth2/sessions/logout"
                 "/userinfo" "/.well-known/openid-configuration"
                 "/.well-known/jwks.json" "/oauth2/introspect"
                 "/oauth2/tokens" "/oauth2/revoke" "/oauth2/auth/requests/consent"
                 "/oauth2/auth/requests/login" "/oauth2/auth/requests/logout"
                 "/oauth2/auth/sessions".

(** The calls of the closure of [serve] once it has its listener. *)
Definition serve_calls (iface : ServeInterface) (srv : Server)
           (address : string) (l : Listener) : list Event :=
  if AddressIsUnixSocket address then [SrvServe srv l]
  else match srv_TLSConfig srv with
       | Some _ => [SrvServeTLS srv l]
       | None =>
           ((if iface_eqb iface PublicInterface
             then [Warnln https_warning] else [])
              ++ [SrvServe srv l])%list
       end.

Definition run_message : string := "Could not gracefully run server".

(** What [serve] has done when its closure has the answer of listener
    resolution: the certificate request when TLS is on, and the log entries
    and backend calls of the resolution. *)
Definition serve_prologue (w : World) (d : Registry) (cmd : Command)
           (iface : ServeInterface) (address : string)
           (permission : UnixPermission) : list Event :=
  ((if TLSEnabled d iface then [AcquireCertificates iface] else [])
     ++ Infof ("Setting up http server on " ++ address)
     :: trace (zitification w cmd iface address permission))%list.

Definition is_wg_done (e : Event) : bool :=
  match e with
  | WgDone => true
  | _ => false
  end.

Definition single_process : Process :=
  mkProcess MainReturned 0 [(admin_task0, Terminated)] false.

Definition fatal_process : Process :=
  mkProcess (MainGo [admin_task0]) 2 [(public_task0, TerminatedFatal)] true.

(** * Properties *)

Lemma fold_left_UseFunc (l : list nat) : forall n : Negroni,
  fold_left (fun n mw => UseFunc n (ServiceLocatorMiddleware mw)) l n
  = (n ++ map ServiceLocatorMiddleware l)%list.
Proof.
  induction l as [|mw l IH]; intro n; simpl.
  - now rewrite app_nil_r.
  - rewrite IH. unfold UseFunc, Use. now rewrite <- app_assoc.
Qed.

Lemma EnhanceMiddleware_stack sl d n address router enableCORS iface :
  EnhanceMiddleware sl d n address router enableCORS iface
  = (n ++ (if AddressIsUnixSocket address then [] else [RejectInsecureRequests iface])
       ++ map ServiceLocatorMiddleware (HTTPMiddlewares sl)
       ++ [RouterHandler router])%list.
Proof.
  unfold EnhanceMiddleware, UseHandler, UseFunc.
  rewrite fold_left_UseFunc. unfold Use.
  destruct (AddressIsUnixSocket address); simpl;
    now rewrite <- ?app_assoc, ?app_nil_r.
Qed.

Lemma setup_result w d s :
  outcome (setup w d) = Ret s ->
  s = (RouterAdmin, RouterPublic,
       setup_stack d AdminInterface, setup_stack d PublicInterface).
Proof.
  unfold setup, outcome.
  destruct (CGroupsV1AutoMaxProcsEnabled d); [destruct (maxprocs_Set w)|];
    simpl; intro H; inversion H; reflexivity.
Qed.

Lemma bind_Ret {A B} (m : M A) (k : A -> M B) (b : B) :
  outcome (bind m k) = Ret b ->
  exists a, outcome m = Ret a /\ outcome (k a) = Ret b.
Proof.
  destruct m as [t [a|]]; unfold outcome; simpl.
  - destruct (k a) as [t' o] eqn:E. simpl. intro H. exists a. now rewrite E.
  - discriminate.
Qed.

(** Every goroutine a [RunServe...] function starts serves the stack of
    [setup] for its interface, enhanced for the listen address of it. *)
Lemma Run_goroutines c w sl coord :
  outcome (Run c w sl) = Ret (inl coord) ->
  exists d, driver_New w = inl d /\
    forall t, In t (goroutines coord) ->
      exists enableCORS,
        t = go_serve sl d (task_iface t) (setup_stack d (task_iface t))
                     (router_of (task_iface t)) enableCORS.
Proof.
  intro H.
  assert (G : exists d, driver_New w = inl d /\
              exists s, outcome (setup w d) = Ret s /\
                match c with
                | ServeAdmin =>
                    let '(admin, _, adminmw, _) := s in
                    goroutines coord = [go_serve sl d AdminInterface adminmw admin true]
                | ServePublic =>
                    let '(_, public, _, publicmw) := s in
                    goroutines coord = [go_serve sl d PublicInterface publicmw public false]
                | ServeAll =>
                    let '(admin, public, adminmw, publicmw) := s in
                    goroutines coord =
                      [go_serve sl d PublicInterface publicmw public false;
                       go_serve sl d AdminInterface adminmw admin true]
                end).
  { destruct c; unfold Run, RunServeAdmin, RunServePublic, RunServeAll in H;
      destruct (driver_New w) as [d|err]; try discriminate H;
      exists d; (split; [reflexivity|]).
    - apply bind_Ret in H. destruct H as [_ [_ H]].
      apply bind_Ret in H. destruct H as [s [Hs H]]. exists s. split; [exact Hs|].
      destruct s as [[[admin public] adminmw] publicmw].
      unfold outcome in H. simpl in H. now inversion H.
    - apply bind_Ret in H. destruct H as [_ [_ H]].
      apply bind_Ret in H. destruct H as [s [Hs H]]. exists s. split; [exact Hs|].
      destruct s as [[[admin public] adminmw] publicmw].
      unfold outcome in H. simpl in H. now inversion H.
    - apply bind_Ret in H. destruct H as [s [Hs H]]. exists s. split; [exact Hs|].
      destruct s as [[[admin public] adminmw] publicmw].
      unfold outcome in H. simpl in H. now inversion H. }
  destruct G as [d [Hd [s [Hs G]]]]. exists d. split; [exact Hd|].
  apply setup_result in Hs. subst s.
  intros t Ht. destruct c; simpl in G; rewrite G in Ht; simpl in Ht;
    repeat (destruct Ht as [Ht|Ht]; [subst t; eexists; reflexivity|]);
    contradiction.
Qed.

(** C1, as amended: for an interface whose listen address is not a unix
    socket, the stack a [RunServe...] function serves is, in this order, the
    access log of the interface, the Prometheus manager, the metrics
    collector, the reject-insecure-request gate, the service-locator
    middlewares in registration order and the router; every handler that
    calls [next] is followed by the next one of that order. *)
Theorem C1_pipeline_order c w sl coord t :
  outcome (Run c w sl) = Ret (inl coord) ->
  In t (goroutines coord) ->
  AddressIsUnixSocket (task_address t) = false ->
  exists d, driver_New w = inl d /\
    task_handler t
    = ([logger_of d (task_iface t); PrometheusManager; MetricsService;
        RejectInsecureRequests (task_iface t)]
         ++ map ServiceLocatorMiddleware (HTTPMiddlewares sl)
         ++ [RouterHandler (router_of (task_iface t))])%list
    /\ ServeHTTP (fun _ => true) (task_handler t) = task_handler t.
Proof.
  intros H Ht Hu.
  destruct (Run_goroutines _ _ _ _ H) as [d [Hd G]].
  destruct (G t Ht) as [b E]. exists d. split; [exact Hd|].
  split.
  - rewrite E in Hu |- *. simpl in Hu |- *.
    rewrite EnhanceMiddleware_stack, Hu. reflexivity.
  - clear. induction (task_handler t) as [|h l IH]; simpl; congruence.
Qed.

Lemma C1_pipeline_order_witness :
  exists d, driver_New world0 = inl d /\
    task_handler admin_task0
    = [adminLogger d; PrometheusManager; MetricsService;
       RejectInsecureRequests AdminInterface;
       ServiceLocatorMiddleware 1; ServiceLocatorMiddleware 2;
       RouterHandler RouterAdmin]
    /\ ServeHTTP (fun _ => true) (task_handler admin_task0)
       = task_handler admin_task0.
Proof.
  apply (C1_pipeline_order ServeAll world0 sl0
           (mkCoordinator 2 [public_task0; admin_task0])).
  - reflexivity.
  - simpl. right. left. reflexivity.
  - reflexivity.
Defined.

(** C1 as the specification states it fails: with the public interface on
    [:4444] the stack served is not the claimed one, its first handler is the
    access log and not the gate, and a request the gate turns down has been
    through the access log, the Prometheus manager and the collector. *)
Lemma C1_gate_not_outermost :
  outcome (RunServePublic world0 sl0) = Ret (inl (mkCoordinator 1 [public_task0]))
  /\ AddressIsUnixSocket (task_address public_task0) = false
  /\ task_handler public_task0 <> claimed_pipeline sl0 registry0 PublicInterface
  /\ hd_error (task_handler public_task0) = Some (publicLogger registry0)
  /\ hd_error (task_handler public_task0)
     <> Some (RejectInsecureRequests PublicInterface)
  /\ ServeHTTP (fun h => negb (is_gate h)) (task_handler public_task0)
     = [publicLogger registry0; PrometheusManager; MetricsService;
        RejectInsecureRequests PublicInterface].
Proof.
  repeat split; try reflexivity; vm_compute; discriminate.
Qed.

(** C4: in every stack a [RunServe...] function serves, a
    reject-insecure-request gate is present exactly when the listen address
    of the interface is not a unix socket. *)
Theorem C4_gate_iff_not_unix_socket c w sl coord t :
  outcome (Run c w sl) = Ret (inl coord) ->
  In t (goroutines coord) ->
  (existsb is_gate (task_handler t) = true
   <-> AddressIsUnixSocket (task_address t) = false).
Proof.
  intros H Ht.
  destruct (Run_goroutines _ _ _ _ H) as [d [_ G]].
  destruct (G t Ht) as [b E]. rewrite E. simpl.
  rewrite EnhanceMiddleware_stack.
  assert (N : existsb is_gate
                (map ServiceLocatorMiddleware (HTTPMiddlewares sl)
                   ++ [RouterHandler (router_of (task_iface t))])%list = false).
  { rewrite existsb_app. simpl. rewrite orb_false_r.
    induction (HTTPMiddlewares sl) as [|mw l IH]; simpl; auto. }
  assert (S : existsb is_gate (setup_stack d (task_iface t)) = false)
    by (destruct (task_iface t); reflexivity).
  rewrite existsb_app, S, existsb_app, N, orb_false_r. simpl.
  destruct (AddressIsUnixSocket (ListenOn d (task_iface t))); simpl;
    split; congruence.
Qed.

Lemma C4_gate_iff_not_unix_socket_witness :
  existsb is_gate (task_handler admin_task_sock) = true
  <-> AddressIsUnixSocket (task_address admin_task_sock) = false.
Proof.
  apply (C4_gate_iff_not_unix_socket ServeAdmin world_sock sl0
           (mkCoordinator 1 [admin_task_sock])).
  - reflexivity.
  - simpl. left. reflexivity.
Defined.

(** C5 does not hold of the code: [EnhanceMiddleware] builds the contextual
    CORS middleware and drops it, so the stack it returns has the CORS
    handlers of the stack it was given and no other; the stacks of [setup]
    have none, and neither has the stack served on [:4444]. *)
Theorem C5_cors_middleware_dropped :
  (forall sl d n address router enableCORS iface,
      filter is_cors (EnhanceMiddleware sl d n address router enableCORS iface)
      = filter is_cors n)
  /\ (forall d iface, filter is_cors (setup_stack d iface) = [])
  /\ existsb is_cors (task_handler public_task0) = false.
Proof.
  split; [|split].
  - intros. rewrite EnhanceMiddleware_stack.
    rewrite !filter_app.
    assert (N : filter is_cors (map ServiceLocatorMiddleware (HTTPMiddlewares sl)) = []).
    { induction (HTTPMiddlewares sl) as [|mw l IH]; simpl; auto. }
    rewrite N.
    destruct (AddressIsUnixSocket address); simpl; now rewrite app_nil_r.
  - intros d []; reflexivity.
  - reflexivity.
Qed.

(** C9: the [enableCORS] argument of [EnhanceMiddleware] has no effect on the
    stack it returns, so the goroutine of the admin path (which passes true)
    and the one of the public path (which passes false) serve the same
    function of the other arguments. *)
Theorem C9_enableCORS_ignored :
  (forall sl d n address router iface,
      EnhanceMiddleware sl d n address router true iface
      = EnhanceMiddleware sl d n address router false iface)
  /\ (forall sl d iface mw router,
         go_serve sl d iface mw router true = go_serve sl d iface mw router false).
Proof.
  split; intros; reflexivity.
Qed.

(** ** Traces of the monad *)

Lemma trace_bind {A B} (m : M A) (k : A -> M B) :
  trace (bind m k)
  = (trace m ++ match outcome m with Ret a => trace (k a) | Exit => [] end)%list.
Proof.
  destruct m as [t [a|]]; unfold trace, outcome; simpl.
  - now destruct (k a).
  - now rewrite app_nil_r.
Qed.

Lemma outcome_bind {A B} (m : M A) (k : A -> M B) :
  outcome (bind m k)
  = match outcome m with Ret a => outcome (k a) | Exit => Exit end.
Proof.
  destruct m as [t [a|]]; unfold outcome; simpl; [now destruct (k a)|reflexivity].
Qed.

Lemma filter_none {A} (f g : A -> bool) (l : list A) :
  Forall (fun x => g x = true) l ->
  (forall x, g x = true -> f x = false) ->
  filter f l = [].
Proof.
  intros H Hfg. induction H as [|x l Hx _ IH]; simpl; [reflexivity|].
  now rewrite (Hfg x Hx).
Qed.

(** ** Listener resolution *)

Lemma Key_admin_prefix iface :
  String.eqb (Key iface "prefix") "serve.admin.prefix" = iface_eqb iface AdminInterface.
Proof. destruct iface; reflexivity. Qed.

Lemma Getenv_unset w key :
  ~ In key (map fst (environ w)) -> Getenv w key = "".
Proof.
  unfold Getenv. induction (environ w) as [|[k v] env IH]; simpl; intro H.
  - reflexivity.
  - destruct (String.eqb_spec k key) as [E|_].
    + exfalso. apply H. now left.
    + apply IH. intro G. apply H. now right.
Qed.

Lemma zitification_events w cmd iface address permission :
  Forall (fun e => is_resolution_event e = true)
         (trace (zitification w cmd iface address permission)).
Proof.
  unfold zitification. rewrite Key_admin_prefix.
  destruct (flag_zitified cmd), (iface_eqb iface AdminInterface); simpl;
    try (repeat constructor).
  destruct (String.eqb (Getenv w "ZITI_SERVICE") ""); simpl.
  - repeat constructor.
  - destruct (ziti_error w (Getenv w "ZITI_SERVICE")); simpl; repeat constructor.
Qed.

Lemma zitification_outcome w cmd iface address permission :
  outcome (zitification w cmd iface address permission)
  = Ret (if tunnel_selected cmd iface
         then if String.eqb (Getenv w "ZITI_SERVICE") ""
              then inr ziti_service_message
              else match ziti_error w (Getenv w "ZITI_SERVICE") with
                   | Some err => inr err
                   | None => inl (ZitiListener (Getenv w "ZITI_SERVICE")
                                               (mkListenOptions (5 * Minute) 3))
                   end
         else MakeListener (bind_error w) address permission).
Proof.
  unfold zitification, tunnel_selected. rewrite Key_admin_prefix.
  destruct (flag_zitified cmd), (iface_eqb iface AdminInterface); simpl;
    try reflexivity.
  destruct (String.eqb (Getenv w "ZITI_SERVICE") ""); simpl; [reflexivity|].
  destruct (ziti_error w (Getenv w "ZITI_SERVICE")); reflexivity.
Qed.

(** C2, as amended: listener resolution always returns, with a listener
    whenever its backend is ready, and the listener it returns is the one of
    the tunnel backend when the tunnel flag is set and the interface is
    Admin, whatever the shape of the address; otherwise a unix socket for a
    filesystem address and a TCP listener in every other case, the Public
    interface with the tunnel flag set included. *)
Theorem C2_listener_mode w cmd iface address permission :
  (exists r, outcome (zitification w cmd iface address permission) = Ret r)
  /\ (backend_ready w cmd iface address ->
      exists l, outcome (zitification w cmd iface address permission) = Ret (inl l))
  /\ (forall l,
         outcome (zitification w cmd iface address permission) = Ret (inl l) ->
         listener_mode l = resolved_mode cmd iface address)
  /\ (flag_zitified cmd = true ->
      resolved_mode cmd PublicInterface address
      = if AddressIsUnixSocket address then UnixSocket else TCP).
Proof.
  rewrite zitification_outcome. unfold backend_ready, resolved_mode, MakeListener.
  repeat split.
  - eexists; reflexivity.
  - destruct (tunnel_selected cmd iface).
    + intros [Hs He]. rewrite He.
      destruct (String.eqb_spec (Getenv w "ZITI_SERVICE") ""); [contradiction|].
      eexists; reflexivity.
    + intros ->. destruct (AddressIsUnixSocket address); eexists; reflexivity.
  - intros l H. destruct (tunnel_selected cmd iface).
    + destruct (String.eqb (Getenv w "ZITI_SERVICE") ""); [discriminate|].
      destruct (ziti_error w (Getenv w "ZITI_SERVICE")); [discriminate|].
      inversion H. reflexivity.
    + destruct (bind_error w address); [discriminate|].
      destruct (AddressIsUnixSocket address); inversion H; reflexivity.
  - intros _. unfold tunnel_selected. simpl. now rewrite andb_false_r.
Qed.

Lemma C2_listener_mode_witness :
  exists l,
    outcome (zitification world_sock cmd_zitified PublicInterface ":4444" perm0)
    = Ret (inl l).
Proof.
  apply (C2_listener_mode world_sock cmd_zitified PublicInterface ":4444" perm0).
  reflexivity.
Defined.

(** C2 as the specification states it fails: on the Admin interface with the
    tunnel flag set, a filesystem address gets the listener of the tunnel
    backend, not a unix socket. *)
Lemma C2_unix_address_gets_tunnel_listener :
  AddressIsUnixSocket "unix:/tmp/admin.sock" = true
  /\ outcome (zitification world_sock cmd_zitified AdminInterface
                           "unix:/tmp/admin.sock" perm0)
     = Ret (inl (ZitiListener "svc-x" (mkListenOptions 300000000000 3)))
  /\ claimed_mode cmd_zitified AdminInterface "unix:/tmp/admin.sock" = UnixSocket
  /\ listener_mode (ZitiListener "svc-x" (mkListenOptions 300000000000 3))
     <> claimed_mode cmd_zitified AdminInterface "unix:/tmp/admin.sock".
Proof.
  repeat split; try reflexivity. vm_compute. discriminate.
Qed.

Lemma zitification_unset w cmd address permission :
  flag_zitified cmd = true ->
  ~ In "ZITI_SERVICE" (map fst (environ w)) ->
  zitification w cmd AdminInterface address permission
  = ([Infof "CW: Incoming config interface: serve.admin.prefix"],
     Ret (inr ziti_service_message)).
Proof.
  intros Hz He. unfold zitification.
  rewrite Hz, (Getenv_unset _ _ He). reflexivity.
Qed.

(** C6: with the tunnel flag set on the Admin interface and ZITI_SERVICE not
    in the environment, listener resolution returns the error that names the
    variable, after the one log entry and without asking any backend for a
    listener; [serve] then ends the process without a listener made or
    served. *)
Theorem C6_unset_tunnel_service w d cmd handler address permission :
  flag_zitified cmd = true ->
  ~ In "ZITI_SERVICE" (map fst (environ w)) ->
  outcome (zitification w cmd AdminInterface address permission)
  = Ret (inr ziti_service_message)
  /\ Strings.Contains ziti_service_message "ZITI_SERVICE" = true
  /\ filter is_listen_event
       (trace (zitification w cmd AdminInterface address permission)) = []
  /\ outcome (serve w d cmd AdminInterface handler address permission) = Exit
  /\ filter (fun e => is_listen_event e || is_serve_event e)
       (trace (serve w d cmd AdminInterface handler address permission)) = [].
Proof.
  intros Hz He.
  pose proof (zitification_unset w cmd address permission Hz He) as E.
  rewrite E. repeat split; try reflexivity.
  - unfold serve, Graceful, serve_start, GetOrCreateTLSCertificate. rewrite E.
    destruct (TLSEnabled d AdminInterface);
      [destruct (certificate_error w AdminInterface)|]; reflexivity.
  - unfold serve, Graceful, serve_start, GetOrCreateTLSCertificate. rewrite E.
    destruct (TLSEnabled d AdminInterface);
      [destruct (certificate_error w AdminInterface)|]; reflexivity.
Qed.

Lemma C6_unset_tunnel_service_witness :
  outcome (zitification world0 cmd_zitified AdminInterface ":4445" perm0)
  = Ret (inr ziti_service_message)
  /\ Strings.Contains ziti_service_message "ZITI_SERVICE" = true
  /\ filter is_listen_event
       (trace (zitification world0 cmd_zitified AdminInterface ":4445" perm0)) = []
  /\ outcome (serve world0 registry0 cmd_zitified AdminInterface
                    (NegroniHandler (task_handler admin_task0)) ":4445" perm0) = Exit
  /\ filter (fun e => is_listen_event e || is_serve_event e)
       (trace (serve world0 registry0 cmd_zitified AdminInterface
                     (NegroniHandler (task_handler admin_task0)) ":4445" perm0)) = [].
Proof.
  apply (C6_unset_tunnel_service world0 registry0 cmd_zitified
           (NegroniHandler (task_handler admin_task0)) ":4445" perm0).
  - reflexivity.
  - simpl. intros [].
Defined.

(** ** Dispatch to a serve mode *)

Lemma serve_start_trace w cmd iface srv tlsConfig address permission listener :
  outcome (zitification w cmd iface address permission) = Ret (inl listener) ->
  trace (serve_start w cmd iface srv tlsConfig address permission)
  = (Infof ("Setting up http server on " ++ address)
       :: trace (zitification w cmd iface address permission)
       ++ (if AddressIsUnixSocket address then [SrvServe srv listener]
           else match tlsConfig with
                | Some _ => [SrvServeTLS srv listener]
                | None =>
                    (if iface_eqb iface PublicInterface
                     then [Warnln https_warning] else [])
                      ++ [SrvServe srv listener]
                end))%list.
Proof.
  intro H. unfold serve_start.
  destruct (zitification w cmd iface address permission) as [tz oz].
  unfold outcome in H. simpl in H. subst oz. unfold trace. simpl.
  destruct (AddressIsUnixSocket address); simpl; [reflexivity|].
  destruct tlsConfig; simpl; [reflexivity|].
  destruct (iface_eqb iface PublicInterface); reflexivity.
Qed.

Lemma iface_eqb_eq a b : iface_eqb a b = true <-> a = b.
Proof. destruct a, b; simpl; split; congruence. Qed.

(** C3: once the listener is there, the closure of [serve] makes exactly one
    serve call: [srv.Serve] on the raw listener for a unix socket address,
    else [srv.ServeTLS] when a TLS configuration was built, else
    [srv.Serve]; and the warning that HTTPS is disabled is logged exactly in
    that last case on the Public interface. *)
Theorem C3_serve_dispatch w cmd iface srv tlsConfig address permission listener :
  outcome (zitification w cmd iface address permission) = Ret (inl listener) ->
  filter is_serve_event
         (trace (serve_start w cmd iface srv tlsConfig address permission))
  = [if AddressIsUnixSocket address then SrvServe srv listener
     else match tlsConfig with
          | Some _ => SrvServeTLS srv listener
          | None => SrvServe srv listener
          end]
  /\ (In (Warnln https_warning)
         (trace (serve_start w cmd iface srv tlsConfig address permission))
      <-> AddressIsUnixSocket address = false
          /\ tlsConfig = None
          /\ iface = PublicInterface).
Proof.
  intro H. rewrite (serve_start_trace _ _ _ _ _ _ _ _ H).
  pose proof (zitification_events w cmd iface address permission) as Hz.
  assert (Fz : filter is_serve_event
                 (trace (zitification w cmd iface address permission)) = []).
  { apply (filter_none _ _ _ Hz). intros [] E; simpl in *; congruence. }
  assert (Wz : ~ In (Warnln https_warning)
                 (trace (zitification w cmd iface address permission))).
  { intro G. rewrite Forall_forall in Hz. apply Hz in G. discriminate G. }
  split.
  - simpl. rewrite filter_app, Fz. simpl.
    destruct (AddressIsUnixSocket address); [reflexivity|].
    destruct tlsConfig; [reflexivity|].
    destruct (iface_eqb iface PublicInterface); reflexivity.
  - simpl. rewrite in_app_iff. split.
    + intros [G|[G|G]]; [discriminate G|contradiction|].
      destruct (AddressIsUnixSocket address);
        [simpl in G; destruct G as [G|[]]; discriminate G|].
      destruct tlsConfig; [simpl in G; destruct G as [G|[]]; discriminate G|].
      destruct (iface_eqb iface PublicInterface) eqn:Ei.
      * apply iface_eqb_eq in Ei. auto.
      * simpl in G. destruct G as [G|[]]; discriminate G.
    + intros [-> [-> ->]]. right. right. simpl. now left.
Qed.

Lemma C3_serve_dispatch_witness :
  filter is_serve_event
         (trace (serve_start world0 cmd_plain PublicInterface
                             (mkServer (NegroniHandler (task_handler public_task0)) None)
                             None ":4444" perm0))
  = [SrvServe (mkServer (NegroniHandler (task_handler public_task0)) None)
              (TCPListener ":4444")]
  /\ (In (Warnln https_warning)
         (trace (serve_start world0 cmd_plain PublicInterface
                             (mkServer (NegroniHandler (task_handler public_task0)) None)
                             None ":4444" perm0))
      <-> AddressIsUnixSocket ":4444" = false
          /\ @None TLSConfig = None
          /\ PublicInterface = PublicInterface).
Proof.
  apply (C3_serve_dispatch world0 cmd_plain PublicInterface
           (mkServer (NegroniHandler (task_handler public_task0)) None)
           None ":4444" perm0 (TCPListener ":4444")).
  reflexivity.
Defined.

Lemma not_in_by_filter {A} (f : A -> bool) (l : list A) (x : A) :
  filter f l = [] -> In x l -> f x = true -> False.
Proof.
  intros Hf Hx Hfx.
  assert (G : In x (filter f l)) by (apply filter_In; auto).
  rewrite Hf in G. exact G.
Qed.

(** C10: with TLS enabled on an interface whose listen address is a unix
    socket, [serve] asks for the certificates first and puts them into the
    TLS configuration of the server, yet never calls [srv.ServeTLS]: when the
    certificates and the listener are there, the one serve call is
    [srv.Serve] on the raw listener. *)
Theorem C10_unix_socket_before_tls w d cmd iface handler address permission :
  TLSEnabled d iface = true ->
  AddressIsUnixSocket address = true ->
  hd_error (trace (serve w d cmd iface handler address permission))
  = Some (AcquireCertificates iface)
  /\ (forall srv l,
         ~ In (SrvServeTLS srv l)
              (trace (serve w d cmd iface handler address permission)))
  /\ (forall l,
         certificate_error w iface = None ->
         outcome (zitification w cmd iface address permission) = Ret (inl l) ->
         filter is_serve_event
                (trace (serve w d cmd iface handler address permission))
         = [SrvServe (mkServer (if TracerIsLoaded d then TraceHandler handler
                                else handler)
                               (Some (mkTLSConfig iface))) l]).
Proof.
  intros Ht Hu.
  pose proof (zitification_events w cmd iface address permission) as Hz.
  assert (Fz : filter is_serve_event
                 (trace (zitification w cmd iface address permission)) = []).
  { apply (filter_none _ _ _ Hz). intros [] E; simpl in *; congruence. }
  assert (Tz : filter is_tls_serve
                 (trace (zitification w cmd iface address permission)) = []).
  { apply (filter_none _ _ _ Hz). intros [] E; simpl in *; congruence. }
  assert (T : filter is_tls_serve
                (trace (serve w d cmd iface handler address permission)) = []).
  { unfold serve, Graceful, serve_start, GetOrCreateTLSCertificate.
    rewrite Ht.
    destruct (zitification w cmd iface address permission) as [tz oz].
    unfold trace in *. simpl in Tz.
    destruct (certificate_error w iface) as [cerr|]; simpl; [reflexivity|].
    destruct oz as [[l|err]|]; simpl; rewrite ?Hu; simpl;
      try destruct (serve_error w l); simpl;
      rewrite ?filter_app, ?Tz; reflexivity. }
  split; [|split].
  - unfold serve, GetOrCreateTLSCertificate. rewrite Ht.
    rewrite !trace_bind. reflexivity.
  - intros srv l G. apply (not_in_by_filter _ _ _ T G). reflexivity.
  - intros l Hc Hl.
    unfold serve, Graceful, serve_start, GetOrCreateTLSCertificate.
    rewrite Ht, Hc.
    destruct (zitification w cmd iface address permission) as [tz oz].
    unfold trace, outcome in *. simpl in Fz, Hl. subst oz. simpl.
    rewrite Hu. simpl.
    destruct (serve_error w l); simpl; rewrite !filter_app, Fz; reflexivity.
Qed.

Lemma C10_unix_socket_before_tls_witness :
  hd_error (trace (serve world_sock registry_sock cmd_plain AdminInterface
                         (NegroniHandler (task_handler admin_task_sock))
                         "unix:/tmp/admin.sock" perm0))
  = Some (AcquireCertificates AdminInterface)
  /\ (forall srv l,
         ~ In (SrvServeTLS srv l)
              (trace (serve world_sock registry_sock cmd_plain AdminInterface
                            (NegroniHandler (task_handler admin_task_sock))
                            "unix:/tmp/admin.sock" perm0)))
  /\ (forall l,
         certificate_error world_sock AdminInterface = None ->
         outcome (zitification world_sock cmd_plain AdminInterface
                               "unix:/tmp/admin.sock" perm0) = Ret (inl l) ->
         filter is_serve_event
                (trace (serve world_sock registry_sock cmd_plain AdminInterface
                              (NegroniHandler (task_handler admin_task_sock))
                              "unix:/tmp/admin.sock" perm0))
         = [SrvServe (mkServer (if TracerIsLoaded registry_sock
                                then TraceHandler
                                       (NegroniHandler (task_handler admin_task_sock))
                                else NegroniHandler (task_handler admin_task_sock))
                               (Some (mkTLSConfig AdminInterface))) l]).
Proof.
  apply (C10_unix_socket_before_tls world_sock registry_sock cmd_plain
           AdminInterface (NegroniHandler (task_handler admin_task_sock))
           "unix:/tmp/admin.sock" perm0).
  - reflexivity.
  - reflexivity.
Defined.

(** ** The data-source guard *)

(** C7: a [RunServe...] function logs the fatal entry of the data-source
    guard only when [driver.New] gave a registry whose DSN is [memory] and
    the command serves one interface alone; then it is the only thing the
    function does.  [RunServeAll] never logs it, whatever the DSN. *)
Theorem C7_dsn_guard c w sl :
  (In (Fatal dsn_message) (trace (Run c w sl)) ->
   c <> ServeAll /\ exists d, driver_New w = inl d /\ DSN d = "memory")
  /\ (forall d, driver_New w = inl d -> DSN d = "memory" -> c <> ServeAll ->
      Run c w sl = ([Fatal dsn_message], Exit))
  /\ ~ In (Fatal dsn_message) (trace (RunServeAll w sl)).
Proof.
  assert (S : forall d, ~ In (Fatal dsn_message) (trace (setup w d))).
  { intros d. unfold setup.
    destruct (CGroupsV1AutoMaxProcsEnabled d); [destruct (maxprocs_Set w)|];
      simpl; intros G; repeat (destruct G as [G|G]; [discriminate G|]);
      exact G. }
  assert (A : ~ In (Fatal dsn_message) (trace (RunServeAll w sl))).
  { unfold RunServeAll. destruct (driver_New w) as [d|err]; [|intros []].
    rewrite trace_bind. intro G. apply in_app_or in G. destruct G as [G|G].
    - exact (S d G).
    - destruct (outcome (setup w d)) as [[[[admin public] adminmw] publicmw]|];
        simpl in G; repeat (destruct G as [G|G]; [discriminate G|]); exact G. }
  split; [|split].
  - destruct c; [| |intro G; exfalso; exact (A G)];
      unfold Run, RunServeAdmin, RunServePublic, isDSNAllowed;
      (destruct (driver_New w) as [d|err]; [|intros []]);
      (destruct (String.eqb_spec (DSN d) "memory") as [E|E];
       [intros _; split; [discriminate|exists d; auto]|]);
      rewrite trace_bind; simpl; rewrite trace_bind;
      intro G; apply in_app_or in G; (destruct G as [G|G]; [destruct (S d G)|]);
      (destruct (outcome (setup w d)) as [[[[admin public] adminmw] publicmw]|];
       simpl in G; repeat (destruct G as [G|G]; [discriminate G|]);
       destruct G).
  - intros d Hd E Hc.
    destruct c; [| |congruence];
      unfold Run, RunServeAdmin, RunServePublic, isDSNAllowed;
      rewrite Hd, E; reflexivity.
  - exact A.
Qed.

Lemma C7_dsn_guard_witness :
  Run ServeAdmin world_memory sl0 = ([Fatal dsn_message], Exit)
  /\ ~ In (Fatal dsn_message) (trace (RunServeAll world_memory sl0)).
Proof.
  split.
  - apply (proj1 (proj2 (C7_dsn_guard ServeAdmin world_memory sl0))
             registry_memory).
    + reflexivity.
    + reflexivity.
    + discriminate.
  - exact (proj2 (proj2 (C7_dsn_guard ServeAdmin world_memory sl0))).
Defined.

(** ** The wait group *)

Lemma pending_app ts us : pending (ts ++ us) = (pending ts + pending us)%Z.
Proof.
  unfold pending. rewrite filter_app, length_app. lia.
Qed.

Lemma pending_cons t s ts :
  pending ((t, s) :: ts) = ((if is_pending s then 1 else 0) + pending ts)%Z.
Proof.
  unfold pending. cbn [filter snd]. destruct (is_pending s); cbn [List.length]; lia.
Qed.

Lemma pending_nonneg ts : (0 <= pending ts)%Z.
Proof. unfold pending. lia. Qed.

Lemma pending_zero ts :
  pending ts = 0%Z -> Forall (fun x => snd x = Terminated) ts.
Proof.
  induction ts as [|[t s] ts IH]; intro H; constructor.
  - rewrite pending_cons in H. pose proof (pending_nonneg ts).
    destruct s; cbn [is_pending snd] in *; try reflexivity; lia.
  - apply IH. rewrite pending_cons in H. pose proof (pending_nonneg ts).
    destruct (is_pending s); lia.
Qed.

Lemma map_fst_update (before after : list (ServeTask * TaskState)) t s s' :
  map fst (before ++ (t, s) :: after) = map fst (before ++ (t, s') :: after).
Proof. now rewrite !map_app. Qed.

Section WaitGroup.

Variable w : World.
Variable d : Registry.
Variable cmd : Command.
Variable c : Coordinator.
Hypothesis Add_counts_goroutines :
  wg_Add c = Z.of_nat (List.length (goroutines c)).

Lemma step_preserves_inv p q :
  coordinator_inv c p -> step w d cmd c p q -> coordinator_inv c q.
Proof.
  intros I S. destruct S; unfold coordinator_inv in *; simpl in *.
  - destruct I as [-> ->]. split; [reflexivity|].
    rewrite Add_counts_goroutines. unfold pending. simpl. lia.
  - destruct I as [I1 I2]. split.
    + now rewrite map_app, <- app_assoc.
    + rewrite pending_app, pending_cons. unfold pending at 2. simpl.
      rewrite I2. simpl length. lia.
  - destruct I as [I1 I2]. rewrite app_nil_r in I1. split; [exact I1|].
    simpl in I2. lia.
  - destruct I as [I1 I2]. auto.
  - pose proof (pending_nonneg before). pose proof (pending_nonneg after).
    rewrite (map_fst_update before after t Terminated Running).
    rewrite !pending_app, !pending_cons in *. cbn [is_pending] in *.
    destruct m; destruct I as [I1 I2].
    + destruct before; discriminate I1.
    + split; [exact I1|lia].
    + split; [exact I1|lia].
    + lia.
  - pose proof (pending_nonneg before). pose proof (pending_nonneg after).
    rewrite (map_fst_update before after t TerminatedFatal Running).
    rewrite !pending_app, !pending_cons in *. cbn [is_pending] in *.
    destruct m; destruct I as [I1 I2].
    + destruct before; discriminate I1.
    + split; [exact I1|lia].
    + split; [exact I1|lia].
    + lia.
Qed.

Lemma reachable_inv p : reachable w d cmd c p -> coordinator_inv c p.
Proof.
  induction 1 as [|p q _ IH S].
  - split; reflexivity.
  - exact (step_preserves_inv p q IH S).
Qed.

Lemma returned_after_all_tasks p :
  reachable w d cmd c p ->
  main p = MainReturned ->
  map fst (tasks p) = goroutines c
  /\ Forall (fun x => snd x = Terminated) (tasks p).
Proof.
  intros R Hm. apply reachable_inv in R. unfold coordinator_inv in R.
  rewrite Hm in R. destruct R as [R1 R2]. split; [exact R1|].
  now apply pending_zero.
Qed.

End WaitGroup.

Lemma RunServeAll_coordinator w sl coord :
  outcome (RunServeAll w sl) = Ret (inl coord) ->
  wg_Add coord = 2%Z
  /\ map task_iface (goroutines coord) = [PublicInterface; AdminInterface].
Proof.
  unfold RunServeAll. destruct (driver_New w) as [d|err]; [|discriminate].
  intro H. apply bind_Ret in H. destruct H as [s [_ H]].
  destruct s as [[[admin public] adminmw] publicmw].
  unfold outcome in H. simpl in H. inversion H. split; reflexivity.
Qed.

(** C8: [RunServeAll] sizes the wait group to two and starts exactly two
    goroutines, the Public one and the Admin one; in every interleaving of
    the three, [wg.Wait()] has returned only in states where both tasks have
    returned from [serve] and run their [wg.Done()]. *)
Theorem C8_both_tasks_awaited w sl coord d :
  outcome (RunServeAll w sl) = Ret (inl coord) ->
  driver_New w = inl d ->
  wg_Add coord = 2%Z
  /\ map task_iface (goroutines coord) = [PublicInterface; AdminInterface]
  /\ forall cmd p,
       reachable w d cmd coord p ->
       main p = MainReturned ->
       map fst (tasks p) = goroutines coord
       /\ List.length (tasks p) = 2%nat
       /\ Forall (fun x => snd x = Terminated) (tasks p).
Proof.
  intros H _. destruct (RunServeAll_coordinator _ _ _ H) as [Ha Hg].
  split; [exact Ha|]. split; [exact Hg|].
  assert (L : List.length (goroutines coord) = 2%nat).
  { rewrite <- (length_map task_iface), Hg. reflexivity. }
  intros cmd p R Hm.
  destruct (returned_after_all_tasks w d cmd coord) with (p := p) as [R1 R2];
    auto.
  - rewrite Ha, L. reflexivity.
  - split; [exact R1|]. split; [|exact R2].
    rewrite <- (length_map fst), R1. exact L.
Qed.

Lemma RunServeAll_can_return :
  reachable world0 registry0 cmd_plain coordinator0
            (mkProcess MainReturned 0
                       [(public_task0, Terminated); (admin_task0, Terminated)]
                       false).
Proof.
  assert (R1 : reachable world0 registry0 cmd_plain coordinator0
                 (mkProcess (MainGo [public_task0; admin_task0]) 2 [] false)).
  { eapply reach_step; [apply reach_start|]. exact (step_Add world0 registry0 cmd_plain coordinator0 0 []). }
  assert (R2 : reachable world0 registry0 cmd_plain coordinator0
                 (mkProcess (MainGo [admin_task0]) 2
                            [(public_task0, Running)] false)).
  { eapply reach_step; [exact R1|].
    exact (step_go world0 registry0 cmd_plain coordinator0
                   public_task0 [admin_task0] 2 []). }
  assert (R3 : reachable world0 registry0 cmd_plain coordinator0
                 (mkProcess (MainGo []) 2
                            [(public_task0, Running); (admin_task0, Running)]
                            false)).
  { eapply reach_step; [exact R2|].
    exact (step_go world0 registry0 cmd_plain coordinator0
                   admin_task0 [] 2 [(public_task0, Running)]). }
  assert (R4 : reachable world0 registry0 cmd_plain coordinator0
                 (mkProcess MainWait 2
                            [(public_task0, Running); (admin_task0, Running)]
                            false)).
  { eapply reach_step; [exact R3|]. apply step_Wait. }
  assert (R5 : reachable world0 registry0 cmd_plain coordinator0
                 (mkProcess MainWait 1
                            [(public_task0, Running); (admin_task0, Terminated)]
                            false)).
  { eapply reach_step; [exact R4|].
    exact (step_Done world0 registry0 cmd_plain coordinator0 MainWait 2
                     [(public_task0, Running)] admin_task0 [] eq_refl). }
  assert (R6 : reachable world0 registry0 cmd_plain coordinator0
                 (mkProcess MainWait 0
                            [(public_task0, Terminated); (admin_task0, Terminated)]
                            false)).
  { eapply reach_step; [exact R5|].
    exact (step_Done world0 registry0 cmd_plain coordinator0 MainWait 1
                     [] public_task0 [(admin_task0, Terminated)] eq_refl). }
  eapply reach_step; [exact R6|]. apply step_return.
Qed.

Lemma C8_both_tasks_awaited_witness :
  wg_Add coordinator0 = 2%Z
  /\ map task_iface (goroutines coordinator0) = [PublicInterface; AdminInterface]
  /\ forall cmd p,
       reachable world0 registry0 cmd coordinator0 p ->
       main p = MainReturned ->
       map fst (tasks p) = goroutines coordinator0
       /\ List.length (tasks p) = 2%nat
       /\ Forall (fun x => snd x = Terminated) (tasks p).
Proof.
  apply (C8_both_tasks_awaited world0 sl0 coordinator0 registry0).
  - reflexivity.
  - reflexivity.
Defined.

(** * Further properties of the file *)

(** ** Strings *)










(** X3: a command that serves one interface alone gets past the guard only
    with a DSN other than [memory], so for the goroutine it starts the
    development flag of the metrics service depends on the issuer URL
    alone. *)
Theorem X3_standalone_IsDevelopment c w sl d coord :
  c <> ServeAll ->
  driver_New w = inl d ->
  outcome (Run c w sl) = Ret (inl coord) ->
  DSN d <> "memory"
  /\ IsDevelopment d
     = (String.eqb (IssuerURL d) "" || Strings.Contains (IssuerURL d) "localhost").
Proof.
  intros Hc Hd H.
  assert (N : String.eqb (DSN d) "memory" = false).
  { destruct (String.eqb (DSN d) "memory") eqn:E; [|reflexivity].
    exfalso. destruct c; [| |congruence];
      unfold Run, RunServeAdmin, RunServePublic, isDSNAllowed in H;
      rewrite Hd, E in H; discriminate H. }
  split.
  - intro E. apply String.eqb_eq in E. congruence.
  - unfold IsDevelopment. now rewrite N.
Qed.

Lemma X3_standalone_IsDevelopment_witness :
  DSN registry_dev <> "memory"
  /\ IsDevelopment registry_dev
     = (String.eqb (IssuerURL registry_dev) ""
        || Strings.Contains (IssuerURL registry_dev) "localhost").
Proof.
  apply (X3_standalone_IsDevelopment ServePublic world_dev sl0 registry_dev
           (mkCoordinator 1
              [go_serve sl0 registry_dev PublicInterface
                        (setup_stack registry_dev PublicInterface)
                        RouterPublic false])).
  - discriminate.
  - reflexivity.
  - reflexivity.
Defined.

(** X4: every path an access log of [setup] leaves out is on the whitelist
    of the metrics service, and an access log leaves out nothing but the
    alive and ready checks of its own interface: the version and the
    Prometheus paths are always logged. *)
Theorem X4_silenced_paths_whitelisted (c : HandlerPaths) (d : Registry)
        (iface : ServeInterface) (path : string) :
  In path (silencePaths_of (logger_of d iface)) ->
  In path (WhitelistedPaths c)
  /\ DisableHealthAccessLog d iface = true
  /\ (path = match iface with
             | AdminInterface => "/admin" ++ AliveCheckPath
             | PublicInterface => AliveCheckPath
             end
      \/ path = match iface with
                | AdminInterface => "/admin" ++ ReadyCheckPath
                | PublicInterface => ReadyCheckPath
                end).
Proof.
  destruct iface; simpl; destruct (DisableHealthAccessLog d _); simpl;
    intros H; try contradiction;
    destruct H as [<-|[<-|[]]]; (split; [|split; [reflexivity|auto]]);
    unfold WhitelistedPaths; simpl; tauto.
Qed.

Lemma X4_silenced_paths_whitelisted_witness :
  In "/admin/health/ready" (WhitelistedPaths paths0)
  /\ DisableHealthAccessLog registry_dev AdminInterface = true
  /\ ("/admin/health/ready" = "/admin" ++ AliveCheckPath
      \/ "/admin/health/ready" = "/admin" ++ ReadyCheckPath).
Proof.
  apply (X4_silenced_paths_whitelisted paths0 registry_dev AdminInterface
           "/admin/health/ready").
  simpl. right. left. reflexivity.
Defined.

(** ** The three commands *)

Ltac run_cases w d :=
  unfold Run, RunServeAdmin, RunServePublic, RunServeAll, isDSNAllowed, setup;
  destruct (driver_New w) as [d|?] eqn:?;
  [destruct (String.eqb_spec (DSN d) "memory");
   destruct (CGroupsV1AutoMaxProcsEnabled d) eqn:?;
   destruct (maxprocs_Set w) eqn:?|];
  unfold trace, outcome; simpl.

(** X5: the only error a [RunServe...] function returns is the error of
    [driver.New], and it returns it before it has done anything else: no
    banner, no guard, no setup, no goroutine. *)
Theorem X5_only_driver_error c w sl err :
  (driver_New w = inr err -> Run c w sl = ([], Ret (inr err)))
  /\ (outcome (Run c w sl) = Ret (inr err) -> driver_New w = inr err).
Proof.
  split.
  - intro H. destruct c; unfold Run, RunServeAdmin, RunServePublic, RunServeAll;
      rewrite H; reflexivity.
  - destruct c; run_cases w d; intro H; congruence.
Qed.

Lemma X5_only_driver_error_witness :
  Run ServeAll world_no_driver sl0 = ([], Ret (inr "driver: could not connect")).
Proof.
  apply (X5_only_driver_error ServeAll world_no_driver sl0
           "driver: could not connect").
  reflexivity.
Defined.

(** X6: a [RunServe...] function ends the process exactly when [driver.New]
    succeeded and either the data-source guard of a single-interface command
    fires or GOMAXPROCS is to be set from the cgroup and cannot be; the last
    thing it did then is the Fatal log, and no router was registered with
    the Prometheus manager. *)
Theorem X6_startup_exit c w sl :
  (outcome (Run c w sl) = Exit
   <-> exists d, driver_New w = inl d
       /\ ((c <> ServeAll /\ DSN d = "memory")
           \/ (CGroupsV1AutoMaxProcsEnabled d = true /\ maxprocs_Set w <> None)))
  /\ (outcome (Run c w sl) = Exit ->
      (exists t msg, trace (Run c w sl) = (t ++ [Fatal msg])%list)
      /\ forall r, ~ In (RegisterRouter r) (trace (Run c w sl))).
Proof.
  split; [split|].
  - destruct c; run_cases w d; intro H; try discriminate H;
      exists d; (split; [reflexivity|]);
      first [ left; split; [discriminate|assumption]
            | right; split; [assumption|discriminate] ].
  - intros [d' [E H]].
    destruct c; run_cases w d; try discriminate E; try reflexivity;
      inversion E; subst d';
      destruct H as [[H1 H2]|[H1 H2]]; congruence.
  - destruct c; run_cases w d; intro H; try discriminate H;
      (split;
       [ first [ exists [], dsn_message; reflexivity
               | exists [PrintBanner], "Couldn't set GOMAXPROCS"; reflexivity ]
       | intros r G; repeat (destruct G as [G|G]; [discriminate G|]); exact G ]).
Qed.

Lemma X6_startup_exit_witness :
  (exists t msg, trace (Run ServeAll world_maxprocs sl0) = (t ++ [Fatal msg])%list)
  /\ forall r, ~ In (RegisterRouter r) (trace (Run ServeAll world_maxprocs sl0)).
Proof.
  apply (X6_startup_exit ServeAll world_maxprocs sl0).
  reflexivity.
Defined.

(** X7: a [RunServe...] function that reaches [wg.Wait()] has printed the
    banner, registered the routes, and then registered with the Prometheus
    manager the routers of exactly the interfaces it serves; it has started
    one goroutine per served interface and sized the wait group to their
    number. *)
Theorem X7_started_and_registered c w sl coord :
  outcome (Run c w sl) = Ret (inl coord) ->
  trace (Run c w sl)
  = ([PrintBanner; RegisterRoutes] ++ map RegisterRouter (registered_routers c))%list
  /\ map task_iface (goroutines coord) = served_interfaces c
  /\ wg_Add coord = Z.of_nat (List.length (goroutines coord))
  /\ forall r, In r (registered_routers c)
               <-> In r (map router_of (served_interfaces c)).
Proof.
  intro H. split; [|split; [|split]].
  - revert H. destruct c; run_cases w d; intro H; try discriminate H; reflexivity.
  - revert H. destruct c; run_cases w d; intro H; try discriminate H;
      inversion H; reflexivity.
  - revert H. destruct c; run_cases w d; intro H; try discriminate H;
      inversion H; reflexivity.
  - intro r. destruct c, r; simpl; tauto.
Qed.

Lemma X7_started_and_registered_witness :
  trace (Run ServeAll world0 sl0)
  = ([PrintBanner; RegisterRoutes]
       ++ map RegisterRouter (registered_routers ServeAll))%list
  /\ map task_iface (goroutines coordinator0) = served_interfaces ServeAll
  /\ wg_Add coordinator0 = Z.of_nat (List.length (goroutines coordinator0))
  /\ forall r, In r (registered_routers ServeAll)
               <-> In r (map router_of (served_interfaces ServeAll)).
Proof.
  apply (X7_started_and_registered ServeAll world0 sl0 coordinator0).
  reflexivity.
Defined.

(** X8: every goroutine a [RunServe...] function starts serves its interface
    on the listen address and with the socket permission configured for
    that very interface, behind the access log of the interface and with
    the router of the interface as the last handler. *)
Theorem X8_task_configuration c w sl d coord t :
  outcome (Run c w sl) = Ret (inl coord) ->
  driver_New w = inl d ->
  In t (goroutines coord) ->
  task_address t = ListenOn d (task_iface t)
  /\ task_permission t = SocketPermission d (task_iface t)
  /\ hd_error (task_handler t) = Some (logger_of d (task_iface t))
  /\ List.last (task_handler t) PrometheusManager
     = RouterHandler (router_of (task_iface t)).
Proof.
  intros H Hd Ht.
  destruct (Run_goroutines _ _ _ _ H) as [d' [Hd' G]].
  assert (d' = d) by congruence. subst d'.
  destruct (G t Ht) as [b E]. rewrite E. simpl.
  rewrite EnhanceMiddleware_stack.
  repeat split.
  rewrite !app_assoc. apply last_last.
Qed.

Lemma X8_task_configuration_witness :
  task_address admin_task_sock = ListenOn registry_sock (task_iface admin_task_sock)
  /\ task_permission admin_task_sock
     = SocketPermission registry_sock (task_iface admin_task_sock)
  /\ hd_error (task_handler admin_task_sock)
     = Some (logger_of registry_sock (task_iface admin_task_sock))
  /\ List.last (task_handler admin_task_sock) PrometheusManager
     = RouterHandler (router_of (task_iface admin_task_sock)).
Proof.
  apply (X8_task_configuration ServeAdmin world_sock sl0 registry_sock
           (mkCoordinator 1 [admin_task_sock])).
  - reflexivity.
  - reflexivity.
  - simpl. left. reflexivity.
Defined.

(** X9: serving both interfaces is serving each of them: when the Public
    and the Admin command both reach [wg.Wait()], so does the command for
    both, with the goroutine of the first followed by the goroutine of the
    second and a wait group sized to the sum. *)
Theorem X9_all_is_public_then_admin w sl cp ca :
  outcome (RunServePublic w sl) = Ret (inl cp) ->
  outcome (RunServeAdmin w sl) = Ret (inl ca) ->
  outcome (RunServeAll w sl)
  = Ret (inl (mkCoordinator (wg_Add cp + wg_Add ca)
                            (goroutines cp ++ goroutines ca))).
Proof.
  run_cases w d; intros Hp Ha; try discriminate Hp;
    inversion Hp; inversion Ha; reflexivity.
Qed.

Lemma X9_all_is_public_then_admin_witness :
  outcome (RunServeAll world0 sl0)
  = Ret (inl (mkCoordinator (1 + 1) ([public_task0] ++ [admin_task0]))).
Proof.
  apply (X9_all_is_public_then_admin world0 sl0
           (mkCoordinator 1 [public_task0]) (mkCoordinator 1 [admin_task0])).
  - reflexivity.
  - reflexivity.
Defined.

(** ** One serving task *)

Lemma serve_unfold w d cmd iface handler address permission :
  certificates_ready w d iface = true ->
  serve w d cmd iface handler address permission
  = let pre := serve_prologue w d cmd iface address permission in
    let srv := server_of d iface handler in
    match outcome (zitification w cmd iface address permission) with
    | Ret (inl l) =>
        match serve_error w l with
        | Some _ =>
            ((pre ++ serve_calls iface srv address l ++ [Fatal run_message])%list,
             Exit)
        | None =>
            ((pre ++ serve_calls iface srv address l ++ [WgDone])%list, Ret tt)
        end
    | Ret (inr _) => ((pre ++ [Fatal run_message])%list, Exit)
    | Exit => (pre, Exit)
    end.
Proof.
  unfold certificates_ready, serve, Graceful, serve_start, serve_calls,
    server_of, serve_prologue, GetOrCreateTLSCertificate.
  destruct (zitification w cmd iface address permission) as [tz [[l|err]|]];
    unfold trace, outcome; simpl;
    destruct (TLSEnabled d iface); simpl;
    try (destruct (certificate_error w iface); simpl; try discriminate);
    intros _;
    try (destruct (AddressIsUnixSocket address); simpl);
    try (destruct (iface_eqb iface PublicInterface); simpl);
    try (destruct (serve_error w l); simpl);
    rewrite <- ?app_assoc; simpl; rewrite ?app_nil_r; reflexivity.
Qed.

Lemma zitification_never_exits w cmd iface address permission :
  outcome (zitification w cmd iface address permission) <> Exit.
Proof. rewrite zitification_outcome. discriminate. Qed.

Lemma zitification_no w cmd iface address permission (f : Event -> bool) :
  (forall e, is_resolution_event e = true -> f e = false) ->
  filter f (trace (zitification w cmd iface address permission)) = [].
Proof.
  intro H. exact (filter_none f _ _ (zitification_events _ _ _ _ _) H).
Qed.

Lemma prologue_no w d cmd iface address permission (f : Event -> bool) :
  (forall e, is_resolution_event e = true -> f e = false) ->
  f (AcquireCertificates iface) = false ->
  filter f (serve_prologue w d cmd iface address permission) = [].
Proof.
  intros H Ha. unfold serve_prologue. rewrite filter_app.
  cbn [filter]. rewrite (H (Infof _) eq_refl), zitification_no by exact H.
  destruct (TLSEnabled d iface); cbn [filter]; rewrite ?Ha; reflexivity.
Qed.

Lemma prologue_listen w d cmd iface address permission :
  filter is_listen_event (serve_prologue w d cmd iface address permission)
  = filter is_listen_event (trace (zitification w cmd iface address permission)).
Proof.
  unfold serve_prologue. rewrite filter_app.
  destruct (TLSEnabled d iface); reflexivity.
Qed.

Lemma serve_calls_no iface srv address l (f : Event -> bool) :
  (forall s x, f (SrvServe s x) = false) ->
  (forall s x, f (SrvServeTLS s x) = false) ->
  (forall m, f (Warnln m) = false) ->
  filter f (serve_calls iface srv address l) = [].
Proof.
  intros H1 H2 H3. unfold serve_calls.
  destruct (AddressIsUnixSocket address); cbn [filter]; rewrite ?H1; auto.
  destruct (srv_TLSConfig srv); cbn [filter]; rewrite ?H2; auto.
  destruct (iface_eqb iface PublicInterface); cbn [filter app];
    rewrite ?H3, ?H1; reflexivity.
Qed.

Lemma serve_calls_serve iface srv address l :
  filter is_serve_event (serve_calls iface srv address l)
  = [if AddressIsUnixSocket address then SrvServe srv l
     else match srv_TLSConfig srv with
          | Some _ => SrvServeTLS srv l
          | None => SrvServe srv l
          end].
Proof.
  unfold serve_calls. destruct (AddressIsUnixSocket address); [reflexivity|].
  destruct (srv_TLSConfig srv); [reflexivity|].
  destruct (iface_eqb iface PublicInterface); reflexivity.
Qed.

Ltac by_kind := intros [] E; simpl in *; congruence.

(** X10: a serving task whose certificates are there returns, and runs its
    deferred [wg.Done()] as the last thing, exactly when listener resolution
    gave a listener and the server on it ended without an error; in every
    other case it ends the process with exactly one Fatal log, which is the
    last thing it does, and [wg.Done()] is never run. *)
Theorem X10_serve_returns_or_exits w d cmd iface handler address permission :
  certificates_ready w d iface = true ->
  (outcome (serve w d cmd iface handler address permission) = Ret tt
   <-> exists l,
       outcome (zitification w cmd iface address permission) = Ret (inl l)
       /\ serve_error w l = None)
  /\ (outcome (serve w d cmd iface handler address permission) = Ret tt ->
      (exists t, trace (serve w d cmd iface handler address permission)
                 = (t ++ [WgDone])%list)
      /\ filter is_fatal_event
                (trace (serve w d cmd iface handler address permission)) = [])
  /\ (outcome (serve w d cmd iface handler address permission) = Exit ->
      (exists t, trace (serve w d cmd iface handler address permission)
                 = (t ++ [Fatal run_message])%list)
      /\ filter is_fatal_event
                (trace (serve w d cmd iface handler address permission))
         = [Fatal run_message]
      /\ filter is_wg_done
                (trace (serve w d cmd iface handler address permission)) = []).
Proof.
  intro Hc. rewrite (serve_unfold _ _ _ _ _ _ _ Hc). cbv zeta.
  pose proof (zitification_never_exits w cmd iface address permission) as Hz.
  assert (Pf : filter is_fatal_event
                 (serve_prologue w d cmd iface address permission) = [])
    by (apply prologue_no; [by_kind|reflexivity]).
  assert (Pw : filter is_wg_done
                 (serve_prologue w d cmd iface address permission) = [])
    by (apply prologue_no; [by_kind|reflexivity]).
  assert (Cf : forall l, filter is_fatal_event
                 (serve_calls iface (server_of d iface handler) address l) = [])
    by (intro; apply serve_calls_no; reflexivity).
  assert (Cw : forall l, filter is_wg_done
                 (serve_calls iface (server_of d iface handler) address l) = [])
    by (intro; apply serve_calls_no; reflexivity).
  destruct (outcome (zitification w cmd iface address permission))
    as [[l|err]|]; [| |congruence].
  - destruct (serve_error w l) as [e|] eqn:Es; unfold outcome, trace;
      cbn [fst snd].
    + split; [split; [discriminate|intros [l' [E1 E2]]; congruence]|].
      split; [discriminate|]. intros _. split; [|split].
      * eexists. rewrite app_assoc. reflexivity.
      * rewrite !filter_app, Pf, Cf. reflexivity.
      * rewrite !filter_app, Pw, Cw. reflexivity.
    + split; [split; [intros _; exists l; auto|reflexivity]|].
      split; [|discriminate]. intros _. split.
      * eexists. rewrite app_assoc. reflexivity.
      * rewrite !filter_app, Pf, Cf. reflexivity.
  - unfold outcome, trace; cbn [fst snd].
    split; [split; [discriminate|intros [l' [E1 E2]]; congruence]|].
    split; [discriminate|]. intros _. split; [|split].
    + eexists. reflexivity.
    + rewrite !filter_app, Pf. reflexivity.
    + rewrite !filter_app, Pw. reflexivity.
Qed.

Lemma X10_serve_returns_or_exits_witness :
  outcome (serve world_bind_error registry0 cmd_plain PublicInterface
                 (NegroniHandler (task_handler public_task0)) ":4444" perm0)
  = Exit
  /\ filter is_fatal_event
       (trace (serve world_bind_error registry0 cmd_plain PublicInterface
                     (NegroniHandler (task_handler public_task0)) ":4444" perm0))
     = [Fatal run_message]
  /\ filter is_wg_done
       (trace (serve world_bind_error registry0 cmd_plain PublicInterface
                     (NegroniHandler (task_handler public_task0)) ":4444" perm0))
     = [].
Proof.
  split; [reflexivity|].
  apply (X10_serve_returns_or_exits world_bind_error registry0 cmd_plain
           PublicInterface (NegroniHandler (task_handler public_task0))
           ":4444" perm0).
  - reflexivity.
  - reflexivity.
Defined.

Lemma zitification_listen_events w cmd iface address permission :
  filter is_listen_event (trace (zitification w cmd iface address permission))
  = if tunnel_selected cmd iface
    then if String.eqb (Getenv w "ZITI_SERVICE") "" then []
         else [ListenWithOptions (Getenv w "ZITI_SERVICE")
                                 (mkListenOptions (5 * Minute) 3)]
    else [MakeListenerCall address permission].
Proof.
  unfold zitification, tunnel_selected. rewrite Key_admin_prefix.
  destruct (flag_zitified cmd), (iface_eqb iface AdminInterface); simpl;
    try reflexivity.
  destruct (String.eqb (Getenv w "ZITI_SERVICE") ""); simpl; [reflexivity|].
  destruct (ziti_error w (Getenv w "ZITI_SERVICE")); reflexivity.
Qed.

Lemma serve_cert_failure w d cmd iface handler address permission :
  certificates_ready w d iface = false ->
  serve w d cmd iface handler address permission
  = ([AcquireCertificates iface; Fatal "Could not get or create TLS certificate"],
     Exit).
Proof.
  unfold certificates_ready, serve, GetOrCreateTLSCertificate.
  destruct (TLSEnabled d iface); simpl; [|discriminate].
  destruct (certificate_error w iface); simpl; [reflexivity|discriminate].
Qed.

Lemma serve_listen_events w d cmd iface handler address permission :
  filter is_listen_event (trace (serve w d cmd iface handler address permission))
  = if certificates_ready w d iface
    then filter is_listen_event
                (trace (zitification w cmd iface address permission))
    else [].
Proof.
  destruct (certificates_ready w d iface) eqn:Hc.
  - rewrite (serve_unfold _ _ _ _ _ _ _ Hc). cbv zeta.
    assert (C : forall l, filter is_listen_event
                   (serve_calls iface (server_of d iface handler) address l) = [])
      by (intro; apply serve_calls_no; reflexivity).
    destruct (outcome (zitification w cmd iface address permission))
      as [[l|err]|]; [destruct (serve_error w l)| |];
      unfold trace; cbn [fst]; rewrite ?filter_app, ?C, prologue_listen;
      cbn [filter is_listen_event]; rewrite ?app_nil_r; reflexivity.
  - rewrite (serve_cert_failure _ _ _ _ _ _ _ Hc). reflexivity.
Qed.

Lemma serve_serve_events w d cmd iface handler address permission :
  certificates_ready w d iface = true ->
  filter is_serve_event (trace (serve w d cmd iface handler address permission))
  = match outcome (zitification w cmd iface address permission) with
    | Ret (inl l) =>
        filter is_serve_event
               (serve_calls iface (server_of d iface handler) address l)
    | _ => []
    end.
Proof.
  intro Hc. rewrite (serve_unfold _ _ _ _ _ _ _ Hc). cbv zeta.
  assert (P : filter is_serve_event
                (serve_prologue w d cmd iface address permission) = [])
    by (apply prologue_no; [by_kind|reflexivity]).
  destruct (outcome (zitification w cmd iface address permission))
    as [[l|err]|]; [destruct (serve_error w l)| |];
    unfold trace; cbn [fst]; rewrite ?filter_app, P;
    cbn [filter is_serve_event app]; rewrite ?app_nil_r; reflexivity.
Qed.

(** X11: an error of listener resolution is fatal to the serving task and
    is not retried: the task ends the process without a single serve call
    and after at most one request to a listener backend.  The error is the
    missing tunnel service name, the error of the tunnel backend or the
    error of binding the address. *)
Theorem X11_listener_error_is_fatal w d cmd iface handler address permission err :
  certificates_ready w d iface = true ->
  outcome (zitification w cmd iface address permission) = Ret (inr err) ->
  outcome (serve w d cmd iface handler address permission) = Exit
  /\ filter is_serve_event
            (trace (serve w d cmd iface handler address permission)) = []
  /\ (List.length
        (filter is_listen_event
                (trace (serve w d cmd iface handler address permission))) <= 1)%nat
  /\ (err = ziti_service_message
      \/ ziti_error w (Getenv w "ZITI_SERVICE") = Some err
      \/ bind_error w address = Some err).
Proof.
  intros Hc Hz. split; [|split; [|split]].
  - rewrite (serve_unfold _ _ _ _ _ _ _ Hc). cbv zeta. rewrite Hz. reflexivity.
  - rewrite (serve_serve_events _ _ _ _ _ _ _ Hc), Hz. reflexivity.
  - rewrite serve_listen_events, Hc, zitification_listen_events.
    destruct (tunnel_selected cmd iface);
      [destruct (String.eqb (Getenv w "ZITI_SERVICE") "")|]; simpl; lia.
  - rewrite zitification_outcome in Hz. unfold MakeListener in Hz.
    destruct (tunnel_selected cmd iface).
    + destruct (String.eqb (Getenv w "ZITI_SERVICE") "");
        [left; congruence|].
      destruct (ziti_error w (Getenv w "ZITI_SERVICE")); [|discriminate].
      right. left. congruence.
    + destruct (bind_error w address); [right; right; congruence|].
      destruct (AddressIsUnixSocket address); discriminate.
Qed.

Lemma X11_listener_error_is_fatal_witness :
  outcome (serve world_bind_error registry0 cmd_plain AdminInterface
                 (NegroniHandler (task_handler admin_task0)) ":4445" perm0)
  = Exit
  /\ filter is_serve_event
            (trace (serve world_bind_error registry0 cmd_plain AdminInterface
                          (NegroniHandler (task_handler admin_task0))
                          ":4445" perm0)) = []
  /\ (List.length
        (filter is_listen_event
                (trace (serve world_bind_error registry0 cmd_plain AdminInterface
                              (NegroniHandler (task_handler admin_task0))
                              ":4445" perm0))) <= 1)%nat
  /\ ("address already in use" = ziti_service_message
      \/ ziti_error world_bind_error (Getenv world_bind_error "ZITI_SERVICE")
         = Some "address already in use"
      \/ bind_error world_bind_error ":4445" = Some "address already in use").
Proof.
  apply (X11_listener_error_is_fatal world_bind_error registry0 cmd_plain
           AdminInterface (NegroniHandler (task_handler admin_task0))
           ":4445" perm0 "address already in use").
  - reflexivity.
  - reflexivity.
Defined.

(** X12: a serving task that has its certificates and its listener makes one
    serve call, on that listener and on a server whose handler is the
    handler it was given, wrapped for tracing exactly when a tracer is
    loaded; the call is [srv.ServeTLS] exactly when TLS is enabled for the
    interface and the address is not a unix socket. *)
Theorem X12_served_handler_and_tls w d cmd iface handler address permission l :
  certificates_ready w d iface = true ->
  outcome (zitification w cmd iface address permission) = Ret (inl l) ->
  exists srv,
    srv_Handler srv = (if TracerIsLoaded d then TraceHandler handler else handler)
    /\ filter is_serve_event
              (trace (serve w d cmd iface handler address permission))
       = [if TLSEnabled d iface && negb (AddressIsUnixSocket address)
          then SrvServeTLS srv l
          else SrvServe srv l].
Proof.
  intros Hc Hz. exists (server_of d iface handler). split; [reflexivity|].
  rewrite (serve_serve_events _ _ _ _ _ _ _ Hc), Hz, serve_calls_serve.
  unfold server_of. simpl.
  destruct (AddressIsUnixSocket address), (TLSEnabled d iface); reflexivity.
Qed.

Lemma X12_served_handler_and_tls_witness :
  exists srv,
    srv_Handler srv
    = (if TracerIsLoaded registry_dev
       then TraceHandler (NegroniHandler (task_handler public_task0))
       else NegroniHandler (task_handler public_task0))
    /\ filter is_serve_event
              (trace (serve world_dev registry_dev cmd_plain PublicInterface
                            (NegroniHandler (task_handler public_task0))
                            ":4444" perm0))
       = [if TLSEnabled registry_dev PublicInterface
             && negb (AddressIsUnixSocket ":4444")
          then SrvServeTLS srv (TCPListener ":4444")
          else SrvServe srv (TCPListener ":4444")].
Proof.
  apply (X12_served_handler_and_tls world_dev registry_dev cmd_plain
           PublicInterface (NegroniHandler (task_handler public_task0))
           ":4444" perm0 (TCPListener ":4444")).
  - reflexivity.
  - reflexivity.
Defined.

(** X13: a serving task asks the tunnel backend for a listener only on the
    Admin interface with the tunnel flag set, under the non-empty service
    name read from ZITI_SERVICE, with a connect timeout of five minutes and
    at most three connections; the Public interface never does. *)
Theorem X13_tunnel_request w d cmd iface handler address permission service options :
  In (ListenWithOptions service options)
     (trace (serve w d cmd iface handler address permission)) ->
  flag_zitified cmd = true
  /\ iface = AdminInterface
  /\ service = Getenv w "ZITI_SERVICE"
  /\ service <> ""
  /\ ConnectTimeout options = 300000000000%Z
  /\ MaxConnections options = 3%Z.
Proof.
  intro H.
  assert (G : In (ListenWithOptions service options)
                 (filter is_listen_event
                    (trace (serve w d cmd iface handler address permission))))
    by (apply filter_In; split; [exact H|reflexivity]).
  rewrite serve_listen_events, zitification_listen_events in G.
  unfold tunnel_selected in G.
  destruct (certificates_ready w d iface); [|destruct G].
  destruct (flag_zitified cmd); [|destruct G as [G|[]]; discriminate G].
  destruct (iface_eqb iface AdminInterface) eqn:Ei;
    [|destruct G as [G|[]]; discriminate G].
  simpl in G.
  destruct (String.eqb_spec (Getenv w "ZITI_SERVICE") "") as [E|E];
    [destruct G|].
  destruct G as [G|[]]. inversion G; subst.
  apply iface_eqb_eq in Ei. repeat split; auto.
Qed.

Lemma X13_tunnel_request_witness :
  flag_zitified cmd_zitified = true
  /\ AdminInterface = AdminInterface
  /\ "svc-x" = Getenv world_sock "ZITI_SERVICE"
  /\ "svc-x" <> ""
  /\ ConnectTimeout (mkListenOptions 300000000000 3) = 300000000000%Z
  /\ MaxConnections (mkListenOptions 300000000000 3) = 3%Z.
Proof.
  apply (X13_tunnel_request world_sock registry_sock cmd_zitified AdminInterface
           (NegroniHandler (task_handler admin_task_sock))
           "unix:/tmp/admin.sock" perm0 "svc-x"
           (mkListenOptions 300000000000 3)).
  vm_compute. right. right. right. right. left. reflexivity.
Defined.

(** X14: a serving task asks for a listener at most once, from one backend
    only; when it calls [networkx.MakeListener], the tunnel is not selected
    and the call is for the address and the permission of the task. *)
Theorem X14_one_listener_request w d cmd iface handler address permission :
  (List.length
     (filter is_listen_event
             (trace (serve w d cmd iface handler address permission))) <= 1)%nat
  /\ forall a p,
       In (MakeListenerCall a p)
          (trace (serve w d cmd iface handler address permission)) ->
       tunnel_selected cmd iface = false /\ a = address /\ p = permission.
Proof.
  split.
  - rewrite serve_listen_events, zitification_listen_events.
    destruct (certificates_ready w d iface), (tunnel_selected cmd iface);
      try destruct (String.eqb (Getenv w "ZITI_SERVICE") ""); simpl; lia.
  - intros a p H.
    assert (G : In (MakeListenerCall a p)
                   (filter is_listen_event
                      (trace (serve w d cmd iface handler address permission))))
      by (apply filter_In; split; [exact H|reflexivity]).
    rewrite serve_listen_events, zitification_listen_events in G.
    destruct (certificates_ready w d iface); [|destruct G].
    destruct (tunnel_selected cmd iface).
    + destruct (String.eqb (Getenv w "ZITI_SERVICE") ""); [destruct G|].
      destruct G as [G|[]]; discriminate G.
    + destruct G as [G|[]]. inversion G. auto.
Qed.

(** X15: a ZITI_SERVICE that is set to the empty string counts as not set:
    with the tunnel flag on the Admin interface, listener resolution
    returns the same error and asks no backend. *)
Theorem X15_empty_tunnel_service w cmd address permission :
  flag_zitified cmd = true ->
  Getenv w "ZITI_SERVICE" = "" ->
  outcome (zitification w cmd AdminInterface address permission)
  = Ret (inr ziti_service_message)
  /\ filter is_listen_event
            (trace (zitification w cmd AdminInterface address permission)) = [].
Proof.
  intros Hf He. rewrite zitification_outcome, zitification_listen_events.
  unfold tunnel_selected. rewrite Hf, He. split; reflexivity.
Qed.

Lemma X15_empty_tunnel_service_witness :
  In ("ZITI_SERVICE", "") (environ world_dev)
  /\ outcome (zitification world_dev cmd_zitified AdminInterface ":4445" perm0)
     = Ret (inr ziti_service_message)
  /\ filter is_listen_event
            (trace (zitification world_dev cmd_zitified AdminInterface
                                 ":4445" perm0)) = [].
Proof.
  split; [simpl; left; reflexivity|].
  apply (X15_empty_tunnel_service world_dev cmd_zitified ":4445" perm0).
  - reflexivity.
  - reflexivity.
Defined.

(** X16: when the tunnel is selected for an Admin interface that is
    configured on a unix socket address, the goroutine of the interface
    serves the listener of the tunnel backend with a plain [srv.Serve], also
    when TLS is enabled, and behind a stack without the
    reject-insecure-request gate. *)
Theorem X16_tunnel_on_unix_address c w sl d coord cmd t l :
  outcome (Run c w sl) = Ret (inl coord) ->
  driver_New w = inl d ->
  In t (goroutines coord) ->
  task_iface t = AdminInterface ->
  flag_zitified cmd = true ->
  AddressIsUnixSocket (task_address t) = true ->
  certificates_ready w d AdminInterface = true ->
  outcome (zitification w cmd AdminInterface (task_address t) (task_permission t))
  = Ret (inl l) ->
  listener_mode l = OverlayTunnel
  /\ existsb is_gate (task_handler t) = false
  /\ filter is_serve_event (trace (run_task w d cmd t))
     = [SrvServe (server_of d AdminInterface (NegroniHandler (task_handler t))) l].
Proof.
  intros H Hd Ht Hi Hf Hu Hc Hz. split; [|split].
  - rewrite zitification_outcome in Hz. unfold tunnel_selected in Hz.
    rewrite Hf in Hz. simpl in Hz.
    destruct (String.eqb (Getenv w "ZITI_SERVICE") ""); [discriminate|].
    destruct (ziti_error w (Getenv w "ZITI_SERVICE")); [discriminate|].
    inversion Hz. reflexivity.
  - destruct (Run_goroutines _ _ _ _ H) as [d' [_ G]].
    destruct (G t Ht) as [b E]. rewrite E in Hu |- *. simpl in Hu |- *.
    rewrite EnhanceMiddleware_stack, Hu, Hi.
    rewrite !existsb_app. simpl. rewrite orb_false_r.
    induction (HTTPMiddlewares sl) as [|mw mws IH]; simpl; auto.
  - unfold run_task. rewrite Hi.
    rewrite (serve_serve_events _ _ _ _ _ _ _ Hc), Hz, serve_calls_serve, Hu.
    reflexivity.
Qed.

Lemma X16_tunnel_on_unix_address_witness :
  listener_mode (ZitiListener "svc-x" (mkListenOptions 300000000000 3))
  = OverlayTunnel
  /\ existsb is_gate (task_handler admin_task_sock) = false
  /\ filter is_serve_event (trace (run_task world_sock registry_sock
                                            cmd_zitified admin_task_sock))
     = [SrvServe (server_of registry_sock AdminInterface
                            (NegroniHandler (task_handler admin_task_sock)))
                 (ZitiListener "svc-x" (mkListenOptions 300000000000 3))].
Proof.
  apply (X16_tunnel_on_unix_address ServeAll world_sock sl0 registry_sock
           (mkCoordinator 2
              [go_serve sl0 registry_sock PublicInterface
                        (setup_stack registry_sock PublicInterface)
                        RouterPublic false;
               admin_task_sock])
           cmd_zitified admin_task_sock).
  - reflexivity.
  - reflexivity.
  - simpl. right. left. reflexivity.
  - reflexivity.
  - reflexivity.
  - reflexivity.
  - reflexivity.
  - reflexivity.
Defined.

(** ** Requests through a stack *)

Lemma ServeHTTP_stops (f : Handler -> bool) (h : Handler) (post : list Handler) :
  f h = false ->
  forall pre, incl (ServeHTTP f (pre ++ h :: post)%list) (pre ++ [h])%list.
Proof.
  intros Hh pre. induction pre as [|x pre IH]; simpl.
  - rewrite Hh. apply incl_refl.
  - destruct (f x).
    + intros y [<-|Hy]; [now left|right; now apply IH].
    + intros y [<-|[]]. now left.
Qed.

Lemma ServeHTTP_reaches_last (f : Handler -> bool) (x : Handler) :
  forall pre, ~ In x pre ->
  (In x (ServeHTTP f (pre ++ [x])%list) <-> forall h, In h pre -> f h = true).
Proof.
  induction pre as [|y pre IH]; simpl; intro Hx.
  - split; [intros _ h []|intros _]. destruct (f x); now left.
  - assert (Hy : y <> x) by (intro E; apply Hx; now left).
    assert (Hp : ~ In x pre) by (intro G; apply Hx; now right).
    split.
    + intros [G|G]; [contradiction|]. destruct (f y) eqn:Ey; [|destruct G].
      intros h [<-|Hh]; [exact Ey|]. now apply (proj1 (IH Hp) G).
    + intro G. right. rewrite (G y (or_introl eq_refl)).
      apply (IH Hp). intros h Hh. apply G. now right.
Qed.

(** X17: on an interface whose listen address is not a unix socket, a
    request that the reject-insecure-request gate does not pass on reaches
    neither a service-locator middleware nor the router of the interface,
    whatever the other handlers do. *)
Theorem X17_rejected_request_stops c w sl coord t (calls_next : Handler -> bool) :
  outcome (Run c w sl) = Ret (inl coord) ->
  In t (goroutines coord) ->
  AddressIsUnixSocket (task_address t) = false ->
  calls_next (RejectInsecureRequests (task_iface t)) = false ->
  forall h,
    In h (ServeHTTP calls_next (task_handler t)) ->
    is_service_locator h = false /\ h <> RouterHandler (router_of (task_iface t)).
Proof.
  intros H Ht Hu Hg h Hh.
  destruct (Run_goroutines _ _ _ _ H) as [d [_ G]].
  destruct (G t Ht) as [b E]. rewrite E in Hu, Hh. simpl in Hu, Hh.
  rewrite EnhanceMiddleware_stack, Hu in Hh.
  change ((setup_stack d (task_iface t)
             ++ [RejectInsecureRequests (task_iface t)]
             ++ map ServiceLocatorMiddleware (HTTPMiddlewares sl)
             ++ [RouterHandler (router_of (task_iface t))])%list)
    with ((setup_stack d (task_iface t)
             ++ RejectInsecureRequests (task_iface t)
             :: (map ServiceLocatorMiddleware (HTTPMiddlewares sl)
                   ++ [RouterHandler (router_of (task_iface t))]))%list) in Hh.
  apply (ServeHTTP_stops _ _ _ Hg) in Hh.
  unfold setup_stack in Hh. simpl in Hh.
  destruct (task_iface t); simpl in Hh;
    repeat (destruct Hh as [<-|Hh]; [split; [reflexivity|discriminate]|]);
    destruct Hh.
Qed.

Lemma X17_rejected_request_stops_witness :
  is_service_locator (RejectInsecureRequests PublicInterface) = false
  /\ RejectInsecureRequests PublicInterface
     <> RouterHandler (router_of (task_iface public_task0)).
Proof.
  apply (X17_rejected_request_stops ServeAll world0 sl0 coordinator0 public_task0
           (fun h => negb (is_gate h))).
  - reflexivity.
  - simpl. left. reflexivity.
  - reflexivity.
  - reflexivity.
  - vm_compute. right. right. right. left. reflexivity.
Defined.

(** X18: a request reaches the router of an interface exactly when every
    handler before it on the stack of the interface calls [next]. *)
Theorem X18_router_reached_iff c w sl coord t (calls_next : Handler -> bool) :
  outcome (Run c w sl) = Ret (inl coord) ->
  In t (goroutines coord) ->
  (In (RouterHandler (router_of (task_iface t)))
      (ServeHTTP calls_next (task_handler t))
   <-> forall h, In h (removelast (task_handler t)) -> calls_next h = true).
Proof.
  intros H Ht.
  destruct (Run_goroutines _ _ _ _ H) as [d [_ G]].
  destruct (G t Ht) as [b E]. rewrite E. simpl.
  rewrite EnhanceMiddleware_stack, !app_assoc, removelast_last.
  apply ServeHTTP_reaches_last.
  rewrite !in_app_iff. unfold setup_stack.
  intros [[G1|G2]|G3].
  - destruct (task_iface t); simpl in G1;
      repeat (destruct G1 as [G1|G1]; [discriminate G1|]); exact G1.
  - destruct (AddressIsUnixSocket (ListenOn d (task_iface t))); simpl in G2;
      [exact G2|destruct G2 as [G2|[]]; discriminate G2].
  - apply in_map_iff in G3. destruct G3 as [mw [G3 _]]. discriminate G3.
Qed.

Lemma X18_router_reached_iff_witness :
  In (RouterHandler (router_of (task_iface admin_task0)))
     (ServeHTTP (fun _ => true) (task_handler admin_task0))
  <-> forall h, In h (removelast (task_handler admin_task0)) ->
                (fun _ : Handler => true) h = true.
Proof.
  apply (X18_router_reached_iff ServeAll world0 sl0 coordinator0 admin_task0
           (fun _ => true)).
  - reflexivity.
  - simpl. right. left. reflexivity.
Defined.

(** X19: [EnhanceMiddleware] only adds to the stack it is given: the
    handlers already there stay first and in their order, the
    service-locator middlewares follow in registration order, and the
    router is the last handler; it adds one handler per service-locator
    middleware, the router, and the gate unless the address is a unix
    socket. *)
Theorem X19_EnhanceMiddleware_appends sl d n address router enableCORS iface :
  exists suffix,
    EnhanceMiddleware sl d n address router enableCORS iface = (n ++ suffix)%list
    /\ List.last suffix PrometheusManager = RouterHandler router
    /\ filter is_service_locator suffix
       = map ServiceLocatorMiddleware (HTTPMiddlewares sl)
    /\ List.length suffix
       = ((if AddressIsUnixSocket address then 0 else 1)
          + List.length (HTTPMiddlewares sl) + 1)%nat.
Proof.
  rewrite EnhanceMiddleware_stack. eexists. split; [reflexivity|].
  split; [|split].
  - rewrite !app_assoc. apply last_last.
  - rewrite !filter_app.
    assert (F : forall l, filter is_service_locator (map ServiceLocatorMiddleware l)
                          = map ServiceLocatorMiddleware l)
      by (induction l as [|x l IH]; simpl; congruence).
    rewrite F. destruct (AddressIsUnixSocket address); simpl;
      now rewrite app_nil_r.
  - rewrite !length_app, length_map.
    destruct (AddressIsUnixSocket address); simpl; lia.
Qed.

(** ** More on the wait group *)

Lemma existsb_fatal_update (before after : list (ServeTask * TaskState)) t s :
  existsb is_fatal_task (before ++ (t, s) :: after)
  = existsb is_fatal_task before
    || (match s with TerminatedFatal => true | _ => false end
        || existsb is_fatal_task after).
Proof. rewrite existsb_app. reflexivity. Qed.

Lemma step_not_exited w d cmd c p q : step w d cmd c p q -> exited p = false.
Proof. destruct 1; reflexivity. Qed.

Section Counter.

Variable w : World.
Variable d : Registry.
Variable cmd : Command.
Variable c : Coordinator.
Hypothesis Add_counts_goroutines :
  wg_Add c = Z.of_nat (List.length (goroutines c)).

Lemma step_preserves_counter p q :
  counter_inv c p -> step w d cmd c p q -> counter_inv c q.
Proof.
  intros [I [Iw Ie]] S.
  split; [exact (step_preserves_inv w d cmd c Add_counts_goroutines p q I S)|].
  destruct S; unfold coordinator_inv in I; simpl in *.
  - split; [discriminate|exact Ie].
  - split; [discriminate|]. rewrite existsb_app. simpl.
    now rewrite !orb_false_r.
  - split; [discriminate|exact Ie].
  - split; [reflexivity|exact Ie].
  - pose proof (pending_nonneg before). pose proof (pending_nonneg after).
    rewrite existsb_fatal_update in *. simpl in *.
    rewrite pending_app, pending_cons in I. cbn [is_pending] in I.
    destruct m; destruct I as [I1 I2].
    + destruct before; discriminate I1.
    + split; [discriminate|]. rewrite <- Ie. apply Z.ltb_ge. lia.
    + split; [discriminate|]. rewrite <- Ie. apply Z.ltb_ge. lia.
    + lia.
  - pose proof (pending_nonneg before). pose proof (pending_nonneg after).
    rewrite existsb_fatal_update. simpl.
    rewrite pending_app, pending_cons in I. cbn [is_pending] in I.
    split; [|now rewrite orb_true_r].
    intro Hm. subst m. destruct I as [_ I2]. lia.
Qed.

Lemma reachable_counter p : reachable w d cmd c p -> counter_inv c p.
Proof.
  induction 1 as [|p q _ IH S].
  - repeat split; reflexivity.
  - exact (step_preserves_counter p q IH S).
Qed.

Lemma counter_nonneg p : counter_inv c p -> (0 <= wg p)%Z.
Proof.
  intros [I [Iw _]]. unfold coordinator_inv in I.
  pose proof (pending_nonneg (tasks p)).
  destruct (main p); destruct I as [I1 I2]; try lia.
  rewrite Iw; [lia|reflexivity].
Qed.

End Counter.

(** X20: when [wg.Add] is given the number of goroutines that are started,
    the counter of the wait group never goes below zero, so no [wg.Done()]
    panics; the counter is zero when [wg.Wait()] has returned; and the
    process has exited exactly when a serving task ended with a Fatal
    log. *)
Theorem X20_counter_never_negative w d cmd c p :
  wg_Add c = Z.of_nat (List.length (goroutines c)) ->
  reachable w d cmd c p ->
  (0 <= wg p)%Z
  /\ (main p = MainReturned -> wg p = 0%Z)
  /\ (exited p = true <-> exists t, In (t, TerminatedFatal) (tasks p)).
Proof.
  intros Ha R. pose proof (reachable_counter w d cmd c Ha p R) as I.
  split; [exact (counter_nonneg c p I)|].
  destruct I as [_ [Iw Ie]]. split; [exact Iw|].
  rewrite Ie, existsb_exists. split.
  - intros [[t s] [Hin Hs]]. unfold is_fatal_task in Hs. simpl in Hs.
    destruct s; try discriminate. now exists t.
  - intros [t Hin]. exists (t, TerminatedFatal). split; [exact Hin|reflexivity].
Qed.

Lemma X20_counter_never_negative_witness :
  (0 <= wg (mkProcess MainReturned 0
                      [(public_task0, Terminated); (admin_task0, Terminated)]
                      false))%Z
  /\ (main (mkProcess MainReturned 0
                      [(public_task0, Terminated); (admin_task0, Terminated)]
                      false) = MainReturned ->
      wg (mkProcess MainReturned 0
                    [(public_task0, Terminated); (admin_task0, Terminated)]
                    false) = 0%Z)
  /\ (exited (mkProcess MainReturned 0
                        [(public_task0, Terminated); (admin_task0, Terminated)]
                        false) = true
      <-> exists t,
          In (t, TerminatedFatal)
             (tasks (mkProcess MainReturned 0
                               [(public_task0, Terminated);
                                (admin_task0, Terminated)] false))).
Proof.
  apply (X20_counter_never_negative world0 registry0 cmd_plain coordinator0).
  - reflexivity.
  - exact RunServeAll_can_return.
Defined.

(** X21: a serving task that ends with a Fatal log ends everything: from
    then on no goroutine takes a step, and the main goroutine has not
    returned from [wg.Wait()], so the [RunServe...] function never returns
    nil after a fatal failure of an interface. *)
Theorem X21_fatal_task_ends_process w d cmd c p t :
  wg_Add c = Z.of_nat (List.length (goroutines c)) ->
  reachable w d cmd c p ->
  In (t, TerminatedFatal) (tasks p) ->
  exited p = true
  /\ main p <> MainReturned
  /\ forall q, ~ step w d cmd c p q.
Proof.
  intros Ha R Hin.
  pose proof (reachable_counter w d cmd c Ha p R) as [I [_ Ie]].
  assert (E : exited p = true).
  { rewrite Ie. apply existsb_exists. exists (t, TerminatedFatal).
    split; [exact Hin|reflexivity]. }
  split; [exact E|]. split.
  - intro Hm. unfold coordinator_inv in I. rewrite Hm in I.
    destruct I as [_ I]. apply pending_zero in I.
    rewrite Forall_forall in I. specialize (I _ Hin). discriminate I.
  - intros q S. apply step_not_exited in S. congruence.
Qed.

Lemma Run_wg_Add c w sl coord :
  outcome (Run c w sl) = Ret (inl coord) ->
  wg_Add coord = Z.of_nat (List.length (goroutines coord))
  /\ map task_iface (goroutines coord) = served_interfaces c.
Proof.
  destruct c; run_cases w d; intro H; try discriminate H;
    inversion H; split; reflexivity.
Qed.

(** X22: whatever the command, the [RunServe...] function has returned from
    [wg.Wait()] only in states where a goroutine was started for each
    interface of the command, in the order of the command, and every one of
    them has returned from [serve]. *)
Theorem X22_every_command_awaits c w sl d cmd coord p :
  outcome (Run c w sl) = Ret (inl coord) ->
  driver_New w = inl d ->
  reachable w d cmd coord p ->
  main p = MainReturned ->
  map task_iface (map fst (tasks p)) = served_interfaces c
  /\ Forall (fun x => snd x = Terminated) (tasks p).
Proof.
  intros H _ R Hm. destruct (Run_wg_Add _ _ _ _ H) as [Ha Hi].
  destruct (returned_after_all_tasks w d cmd coord Ha p R Hm) as [R1 R2].
  split; [|exact R2]. now rewrite R1.
Qed.

Lemma RunServeAdmin_can_return :
  reachable world0 registry0 cmd_plain (mkCoordinator 1 [admin_task0])
            single_process.
Proof.
  assert (R1 : reachable world0 registry0 cmd_plain (mkCoordinator 1 [admin_task0])
                 (mkProcess (MainGo [admin_task0]) 1 [] false)).
  { eapply reach_step; [apply reach_start|].
    exact (step_Add world0 registry0 cmd_plain (mkCoordinator 1 [admin_task0])
                    0 []). }
  assert (R2 : reachable world0 registry0 cmd_plain (mkCoordinator 1 [admin_task0])
                 (mkProcess (MainGo []) 1 [(admin_task0, Running)] false)).
  { eapply reach_step; [exact R1|].
    exact (step_go world0 registry0 cmd_plain (mkCoordinator 1 [admin_task0])
                   admin_task0 [] 1 []). }
  assert (R3 : reachable world0 registry0 cmd_plain (mkCoordinator 1 [admin_task0])
                 (mkProcess MainWait 1 [(admin_task0, Running)] false)).
  { eapply reach_step; [exact R2|]. apply step_Wait. }
  assert (R4 : reachable world0 registry0 cmd_plain (mkCoordinator 1 [admin_task0])
                 (mkProcess MainWait 0 [(admin_task0, Terminated)] false)).
  { eapply reach_step; [exact R3|].
    exact (step_Done world0 registry0 cmd_plain (mkCoordinator 1 [admin_task0])
                     MainWait 1 [] admin_task0 [] eq_refl). }
  eapply reach_step; [exact R4|]. apply step_return.
Qed.

Lemma X22_every_command_awaits_witness :
  map task_iface (map fst (tasks single_process)) = served_interfaces ServeAdmin
  /\ Forall (fun x => snd x = Terminated) (tasks single_process).
Proof.
  apply (X22_every_command_awaits ServeAdmin world0 sl0 registry0 cmd_plain
           (mkCoordinator 1 [admin_task0]) single_process).
  - reflexivity.
  - reflexivity.
  - exact RunServeAdmin_can_return.
  - reflexivity.
Defined.

Lemma fatal_process_reachable :
  reachable world_bind_error registry0 cmd_plain coordinator0 fatal_process.
Proof.
  assert (R1 : reachable world_bind_error registry0 cmd_plain coordinator0
                 (mkProcess (MainGo [public_task0; admin_task0]) 2 [] false)).
  { eapply reach_step; [apply reach_start|].
    exact (step_Add world_bind_error registry0 cmd_plain coordinator0 0 []). }
  assert (R2 : reachable world_bind_error registry0 cmd_plain coordinator0
                 (mkProcess (MainGo [admin_task0]) 2
                            [(public_task0, Running)] false)).
  { eapply reach_step; [exact R1|].
    exact (step_go world_bind_error registry0 cmd_plain coordinator0
                   public_task0 [admin_task0] 2 []). }
  eapply reach_step; [exact R2|].
  exact (step_Fatal world_bind_error registry0 cmd_plain coordinator0
                    (MainGo [admin_task0]) 2 [] public_task0 [] eq_refl).
Qed.

Lemma X21_fatal_task_ends_process_witness :
  exited fatal_process = true
  /\ main fatal_process <> MainReturned
  /\ forall q, ~ step world_bind_error registry0 cmd_plain coordinator0
                     fatal_process q.
Proof.
  apply (X21_fatal_task_ends_process world_bind_error registry0 cmd_plain
           coordinator0 fatal_process public_task0).
  - reflexivity.
  - exact fatal_process_reachable.
  - simpl. left. reflexivity.
Defined.

(** ** The coordinator does not block *)

Lemma step_Done_counted w d cmd c m n before t after :
  outcome (run_task w d cmd t) = Ret tt ->
  (1 <= n)%Z ->
  step w d cmd c
       (mkProcess m n (before ++ (t, Running) :: after) false)
       (mkProcess m (n - 1) (before ++ (t, Terminated) :: after) false).
Proof.
  intros H Hn. pose proof (step_Done w d cmd c m n before t after H) as S.
  assert (E : (n - 1 <? 0)%Z = false) by (apply Z.ltb_ge; lia).
  rewrite E in S. exact S.
Qed.

Section Liveness.

Variable w : World.
Variable d : Registry.
Variable cmd : Command.
Variable c : Coordinator.

Lemma spawn_all rest : forall n ts,
  reachable w d cmd c (mkProcess (MainGo rest) n ts false) ->
  reachable w d cmd c
            (mkProcess (MainGo []) n
                       (ts ++ map (fun t => (t, Running)) rest) false).
Proof.
  induction rest as [|t rest IH]; intros n ts R; simpl.
  - now rewrite app_nil_r.
  - replace (ts ++ (t, Running) :: map (fun t => (t, Running)) rest)%list
      with ((ts ++ [(t, Running)]) ++ map (fun t => (t, Running)) rest)%list
      by (now rewrite <- app_assoc).
    apply IH. eapply reach_step; [exact R|]. apply step_go.
Qed.

Lemma done_all rs : forall pre n,
  (0 <= n)%Z ->
  (forall t, In t rs -> outcome (run_task w d cmd t) = Ret tt) ->
  reachable w d cmd c
            (mkProcess MainWait (n + Z.of_nat (List.length rs))
                       (pre ++ map (fun t => (t, Running)) rs) false) ->
  reachable w d cmd c
            (mkProcess MainWait n
                       (pre ++ map (fun t => (t, Terminated)) rs) false).
Proof.
  induction rs as [|r rs IH]; intros pre n Hn Hr R; simpl in *.
  - now rewrite Z.add_0_r in R.
  - replace (pre ++ (r, Terminated) :: map (fun t => (t, Terminated)) rs)%list
      with ((pre ++ [(r, Terminated)]) ++ map (fun t => (t, Terminated)) rs)%list
      by (now rewrite <- app_assoc).
    apply IH; [exact Hn|intros t Ht; apply Hr; now right|].
    rewrite <- app_assoc. simpl.
    replace (n + Z.of_nat (List.length rs))%Z
      with (n + Z.pos (Pos.of_succ_nat (List.length rs)) - 1)%Z by lia.
    eapply reach_step; [exact R|].
    apply step_Done_counted; [apply Hr; now left|lia].
Qed.

End Liveness.

(** X23: the coordinator does not block on its own: when [wg.Add] is given
    the number of goroutines and every serving task returns from [serve],
    there is an interleaving in which [wg.Wait()] returns, with every task
    terminated and the counter at zero. *)
Theorem X23_returns_when_tasks_return w d cmd c :
  wg_Add c = Z.of_nat (List.length (goroutines c)) ->
  (forall t, In t (goroutines c) -> outcome (run_task w d cmd t) = Ret tt) ->
  reachable w d cmd c
            (mkProcess MainReturned 0
                       (map (fun t => (t, Terminated)) (goroutines c)) false).
Proof.
  intros Ha Hr.
  eapply reach_step; [|apply step_return].
  apply (done_all w d cmd c (goroutines c) [] 0%Z); [lia|exact Hr|].
  simpl. eapply reach_step; [|apply step_Wait].
  apply (spawn_all w d cmd c (goroutines c) _ []).
  rewrite <- Ha.
  eapply reach_step; [apply reach_start|].
  exact (step_Add w d cmd c 0 []).
Qed.

Lemma X23_returns_when_tasks_return_witness :
  reachable world0 registry0 cmd_plain coordinator0
            (mkProcess MainReturned 0
                       (map (fun t => (t, Terminated)) (goroutines coordinator0))
                       false).
Proof.
  apply (X23_returns_when_tasks_return world0 registry0 cmd_plain coordinator0).
  - reflexivity.
  - intros t [<-|[<-|[]]]; reflexivity.
Defined.
